(** * FlareChef recipe synthesis: a shallow embedding of [main.py]

    The development follows the source file top to bottom: the string
    primitives of Python that the utilities rely on, the nutrition lexicon
    [CALORIE_HINTS], the utilities ([estimate_nutrition], [craft_title],
    [craft_description], [craft_steps], [compute_time]) and the
    [/api/generate] route with its request model.

    Conventions of the embedding.
    - A Python [str] is a [string]; the characters covered are the ASCII
      ones (code points below 128).  A character above that range is kept
      as it is and counts neither as whitespace nor as a cased letter.
    - A Python [int] is a [Z].
    - A Python [float] is read in two ways.  Module [Binary64] runs the
      estimator in IEEE 754 binary64, the arithmetic of the code; what
      depends on the rounding of float additions (sign, final rounding,
      order of the ingredients) is stated on it.  The top-level
      [estimate_nutrition] takes the sums as exact rationals [Q], every
      literal of the lexicon being a decimal with at most one fractional
      digit; it serves for what does not depend on that rounding (which
      entry an ingredient receives, calories, concrete examples), and floats
      are compared there with [==], as Python compares numbers.
    - An exception is a constructor of the result type. *)

From Stdlib Require Import Bool Arith ZArith QArith Qround Lia List.
From Stdlib Require Import Ascii String Permutation SpecFloat.
From Stdlib Require Qpower Nnat PrimFloat FloatOps FloatAxioms.
Import ListNotations.

Local Close Scope Q_scope.
Local Open Scope string_scope.
Local Open Scope list_scope.
Local Open Scope nat_scope.

(** ** Python string primitives *)

Module PyStr.

(** [str.isspace] on one ASCII character: TAB, LF, VT, FF, CR, the four
    separators FS, GS, RS, US, and the space. *)
Definition is_space (c : ascii) : bool :=
  let n := nat_of_ascii c in
  ((9 <=? n) && (n <=? 13)) || ((28 <=? n) && (n <=? 32)).

Definition is_upper (c : ascii) : bool :=
  let n := nat_of_ascii c in (65 <=? n) && (n <=? 90).

Definition is_lower (c : ascii) : bool :=
  let n := nat_of_ascii c in (97 <=? n) && (n <=? 122).

Definition is_cased (c : ascii) : bool := is_upper c || is_lower c.

Definition lower_char (c : ascii) : ascii :=
  if is_upper c then ascii_of_nat (nat_of_ascii c + 32) else c.

Definition upper_char (c : ascii) : ascii :=
  if is_lower c then ascii_of_nat (nat_of_ascii c - 32) else c.

(** [s.lower()] *)
Fixpoint lower (s : string) : string :=
  match s with
  | EmptyString => EmptyString
  | String c s' => String (lower_char c) (lower s')
  end.

(** [s.title()]: a cased character that follows an uncased one (or starts
    the string) is put in upper case, every other cased character in lower
    case. *)
Fixpoint title_from (previous_is_cased : bool) (s : string) : string :=
  match s with
  | EmptyString => EmptyString
  | String c s' =>
      String (if previous_is_cased then lower_char c else upper_char c)
             (title_from (is_cased c) s')
  end.

Definition title (s : string) : string := title_from false s.

(** [s.lstrip()], [s.rstrip()] and [s.strip()] without arguments. *)
Fixpoint lstrip (s : string) : string :=
  match s with
  | EmptyString => EmptyString
  | String c s' => if is_space c then lstrip s' else s
  end.

Fixpoint rstrip (s : string) : string :=
  match s with
  | EmptyString => EmptyString
  | String c s' =>
      match rstrip s' with
      | EmptyString => if is_space c then EmptyString else String c EmptyString
      | r => String c r
      end
  end.

Definition strip (s : string) : string := rstrip (lstrip s).

(** Truth value of a [str]: the empty string is false. *)
Definition truthy (s : string) : bool :=
  match s with EmptyString => false | String _ _ => true end.

(** [s.split(sep)] for a one-character separator: never returns the empty
    list, and [''.split(',')] is [['']]. *)
Fixpoint split (sep : ascii) (s : string) : list string :=
  match s with
  | EmptyString => [EmptyString]
  | String c s' =>
      if Ascii.eqb c sep then EmptyString :: split sep s'
      else match split sep s' with
           | [] => [String c EmptyString]
           | seg :: segs => String c seg :: segs
           end
  end.

(** [sep.join(l)] *)
Fixpoint join (sep : string) (l : list string) : string :=
  match l with
  | [] => EmptyString
  | [x] => x
  | x :: rest => (x ++ sep ++ join sep rest)%string
  end.

(** [sub in s]: [sub] occurs in [s] as a contiguous substring. *)
Fixpoint contains (sub s : string) : bool :=
  String.prefix sub s ||
  match s with
  | EmptyString => false
  | String _ s' => contains sub s'
  end.

(** [a or b] on strings. *)
Definition or_else (a b : string) : string := if truthy a then a else b.

End PyStr.

(** ** Models *)

(** [NutritionModel]: [calories] is an [int], the other fields are [float]s. *)
Record NutritionModel : Type := {
  calories : Z;
  protein : Q;
  carbs : Q;
  fat : Q
}.

(** [RecipeModel]; [image_url] is [Optional[str]]. *)
Record RecipeModel : Type := {
  title : string;
  description : string;
  ingredients : list string;
  steps : list string;
  time_minutes : Z;
  nutrition : NutritionModel;
  image_url : option string
}.

(** ** Utilities *)

(** One entry of the lexicon: (calories, protein, carbs, fat). *)
Definition hint : Type := (Q * Q * Q * Q)%type.

(** [CALORIE_HINTS], in declaration order: a Python [dict] iterates over its
    keys in insertion order. *)
Definition CALORIE_HINTS : list (string * hint) :=
  [ ("chicken",   (165, 31, 0, 3.6));
    ("beef",      (250, 26, 0, 15));
    ("pork",      (242, 27, 0, 14));
    ("salmon",    (208, 20, 0, 13));
    ("egg",       (78, 6, 0.6, 5));
    ("rice",      (206, 4.3, 45, 0.4));
    ("pasta",     (221, 8, 43, 1.3));
    ("potato",    (161, 4.3, 37, 0.2));
    ("beans",     (155, 10, 28, 0.5));
    ("tofu",      (144, 17, 3, 9));
    ("cheese",    (113, 7, 0.4, 9.3));
    ("milk",      (103, 8, 12, 2.4));
    ("olive oil", (119, 0, 0, 13.5));
    ("butter",    (102, 0.1, 0, 11.5));
    ("bread",     (79, 3, 15, 1));
    ("avocado",   (160, 2, 9, 15)) ]%Q.

Definition FALLBACK_IMAGE : string :=
  "https://images.unsplash.com/photo-1504674900247-0877df9cc836?q=80&w=1600&auto=format&fit=crop".

(** [for key in CALORIE_HINTS: if key in k: found = key; break], over any
    lexicon: the first key, in iteration order, that occurs in [k]. *)
Fixpoint first_key_in (hints : list (string * hint)) (k : string)
  : option string :=
  match hints with
  | [] => None
  | (key, _) :: rest =>
      if PyStr.contains key k then Some key else first_key_in rest k
  end.

(** [d[key]] on a dict given by its items: [None] stands for [KeyError]. *)
Fixpoint getitem (hints : list (string * hint)) (key : string)
  : option hint :=
  match hints with
  | [] => None
  | (key', h) :: rest =>
      if String.eqb key' key then Some h else getitem rest key
  end.

(** [int(x)] on a float: truncation towards zero. *)
Definition int_of_float (x : Q) : Z := Z.quot (Qnum x) (Zpos (Qden x)).

(** Nearest integer, ties to the even one. *)
Definition round_half_even (x : Q) : Z :=
  let f := Qfloor x in
  match Qcompare (x - inject_Z f) (1 # 2) with
  | Lt => f
  | Gt => (f + 1)%Z
  | Eq => if Z.even f then f else (f + 1)%Z
  end.

(** [round(x, 1)]: the nearest decimal with one fractional digit, ties to
    the even digit. *)
Definition round1 (x : Q) : Q := (round_half_even (x * 10) # 10)%Q.

(** The four running totals of [estimate_nutrition]. *)
Record totals : Type := {
  total_cals : Q;
  total_pro : Q;
  total_carb : Q;
  total_fat : Q
}.

(** The body of the loop of [estimate_nutrition] for one element [raw].
    The inner [None] branch is the [KeyError] of [CALORIE_HINTS[found]]; it
    cannot be taken (see [first_key_in_getitem]) and leaves the totals. *)
Definition estimate_step (t : totals) (raw : string) : totals :=
  let k := PyStr.lower (PyStr.strip raw) in
  let found := first_key_in CALORIE_HINTS k in
  match found with
  | Some key =>
      if PyStr.truthy key then
        match getitem CALORIE_HINTS key with
        | Some (c, p, cb, f) =>
            {| total_cals := total_cals t + c;
               total_pro := total_pro t + p;
               total_carb := total_carb t + cb;
               total_fat := total_fat t + f |}
        | None => t
        end
      else
        {| total_cals := total_cals t + 40;
           total_pro := total_pro t;
           total_carb := total_carb t + 5;
           total_fat := total_fat t |}
  | None =>
      {| total_cals := total_cals t + 40;
         total_pro := total_pro t;
         total_carb := total_carb t + 5;
         total_fat := total_fat t |}
  end%Q.

Definition estimate_nutrition (ings : list string) : NutritionModel :=
  let t := fold_left estimate_step ings
             {| total_cals := 0; total_pro := 0;
                total_carb := 0; total_fat := 0 |}%Q in
  {| calories := int_of_float (total_cals t);
     protein := round1 (total_pro t);
     carbs := round1 (total_carb t);
     fat := round1 (total_fat t) |}.

(** [core = [i.strip().title() for i in ings if i.strip()]] *)
Definition title_core (ings : list string) : list string :=
  map (fun i => PyStr.title (PyStr.strip i))
      (filter (fun i => PyStr.truthy (PyStr.strip i)) ings).

(** [core[0]] is read only when [len(core) == 1]; the default of [nth] stands
    for the [IndexError] that cannot occur there. *)
Definition craft_title (ings : list string) : string :=
  let core := title_core ings in
  if List.length core =? 0 then "FlareChef Creation"
  else if List.length core =? 1 then
    ("Ignited " ++ nth 0 core "" ++ " Delight")%string
  else
    let medley := if 2 <? List.length core then " Medley" else "" in
    ("Flame-Kissed " ++ PyStr.join " & " (firstn 2 core) ++ medley)%string.

Definition craft_description (ings : list string) : string :=
  let base :=
    PyStr.join ", "
      (map PyStr.strip (filter (fun i => PyStr.truthy (PyStr.strip i)) ings)) in
  ("A warm, glowing recipe that turns " ++ base
     ++ " into a cozy, restaurant-worthy dish.")%string.

Definition craft_steps (ings : list string) : list string :=
  let lead :=
    match ings with
    | i0 :: _ => PyStr.lower (PyStr.strip i0)
    | [] => "ingredients"
    end in
  [ "Preheat a skillet until it softly shimmers like a flame.";
    ("Add " ++ lead
       ++ " with a drizzle of oil; sear until lightly caramelized.")%string;
    "Fold in remaining ingredients and season with salt, pepper, and a hint of heat.";
    "Simmer until flavors meld and textures are tender.";
    "Finish with fresh herbs or citrus and serve warm." ].

Definition compute_time (ings : list string) : Z :=
  let base := (10 + 5 * Z.of_nat (List.length ings))%Z in
  Z.min (Z.max base 15) 75.

(** ** Routes *)

(** The request model of [/api/generate]: one [str] field declared with
    [Field(..., min_length=2)]. *)
Module GenerateRequest.

Record t : Type := { ingredients : string }.

(** Construction of the model from the text sent by the client: the field
    constraint accepts a string of at least two characters, and a shorter one
    makes the construction fail. *)
Definition validate (raw : string) : option t :=
  if 2 <=? String.length raw then Some {| ingredients := raw |} else None.

End GenerateRequest.

(** What a route answers: a value, an [HTTPException] raised by the handler,
    or the rejection of the request body by its model, which happens before
    the handler is entered. *)
Inductive response (A : Type) : Type :=
| Ok (a : A)
| HTTPException (status_code : Z) (detail : string)
| RequestValidationError.

Arguments Ok {A} a.
Arguments HTTPException {A} status_code detail.
Arguments RequestValidationError {A}.

(** [[i.strip() for i in text.split(',') if i.strip()]] *)
Definition parse_ingredients (text : string) : list string :=
  map PyStr.strip
      (filter (fun i => PyStr.truthy (PyStr.strip i)) (PyStr.split "," text)).

Definition image_url_of (ingredients : list string) : string :=
  let query := PyStr.or_else (PyStr.join "+" (firstn 3 ingredients)) "food" in
  let image_url := ("https://source.unsplash.com/featured/?" ++ query)%string in
  PyStr.or_else image_url FALLBACK_IMAGE.

(** The handler of [POST /api/generate]. *)
Definition generate_recipe (payload : GenerateRequest.t)
  : response RecipeModel :=
  let ingredients := parse_ingredients (GenerateRequest.ingredients payload) in
  if List.length ingredients =? 0 then
    HTTPException 400 "Please provide at least one ingredient."
  else
    Ok {| title := craft_title ingredients;
          description := craft_description ingredients;
          ingredients := ingredients;
          steps := craft_steps ingredients;
          time_minutes := compute_time ingredients;
          nutrition := estimate_nutrition ingredients;
          image_url := Some (image_url_of ingredients) |}.

(** The route as the client sees it: the body is first turned into the
    request model, then handed to the handler. *)
Definition post_generate (raw : string) : response RecipeModel :=
  match GenerateRequest.validate raw with
  | Some payload => generate_recipe payload
  | None => RequestValidationError
  end.

(** ** The estimator in IEEE 754 binary64

    The same loop, run with the arithmetic of the machine: Python's [float]
    is binary64, a literal denotes the nearest float, [+] rounds to nearest
    with ties to even, and [round(x, 1)] returns the float nearest to the
    one-digit decimal that is nearest to the exact value of [x].  It serves to
    check that the exact model and the machine agree on concrete lists. *)

Module Binary64.

Definition prec : Z := 53.
Definition emax : Z := 1024.

Definition of_Z (n : Z) : spec_float := binary_normalize prec emax n 0 false.

(** The float denoted by a decimal literal. *)
Definition of_decimal (q : Q) : spec_float :=
  SFdiv prec emax (of_Z (Qnum q)) (of_Z (Zpos (Qden q))).

Definition add (x y : spec_float) : spec_float := SFadd prec emax x y.

(** The exact value of a finite float. *)
Definition to_Q (x : spec_float) : Q :=
  match x with
  | S754_finite s m e =>
      (inject_Z (cond_Zopp s (Zpos m)) * Qpower 2 e)%Q
  | _ => 0%Q
  end.

(** [int(x)]: [None] stands for the [OverflowError] or [ValueError] raised
    on an infinity or a NaN. *)
Definition int_of_float (x : spec_float) : option Z :=
  match x with
  | S754_zero _ => Some 0%Z
  | S754_finite _ _ _ => Some (int_of_float (to_Q x))
  | S754_infinity _ | S754_nan => None
  end.

(** [round(x, 1)]; zeros, infinities and NaN are returned as they are, and a
    result that rounds to zero keeps the sign of [x]. *)
Definition round1 (x : spec_float) : spec_float :=
  match x with
  | S754_finite s _ _ =>
      let n := round_half_even (to_Q x * 10) in
      if (n =? 0)%Z then S754_zero s else of_decimal (n # 10)
  | _ => x
  end.

Record totals : Type := {
  total_cals : spec_float;
  total_pro : spec_float;
  total_carb : spec_float;
  total_fat : spec_float
}.

Record NutritionModel : Type := {
  calories : Z;
  protein : spec_float;
  carbs : spec_float;
  fat : spec_float
}.

Definition estimate_step (t : totals) (raw : string) : totals :=
  let k := PyStr.lower (PyStr.strip raw) in
  let found := first_key_in CALORIE_HINTS k in
  match found with
  | Some key =>
      if PyStr.truthy key then
        match getitem CALORIE_HINTS key with
        | Some (c, p, cb, f) =>
            {| total_cals := add (total_cals t) (of_decimal c);
               total_pro := add (total_pro t) (of_decimal p);
               total_carb := add (total_carb t) (of_decimal cb);
               total_fat := add (total_fat t) (of_decimal f) |}
        | None => t
        end
      else
        {| total_cals := add (total_cals t) (of_Z 40);
           total_pro := total_pro t;
           total_carb := add (total_carb t) (of_Z 5);
           total_fat := total_fat t |}
  | None =>
      {| total_cals := add (total_cals t) (of_Z 40);
         total_pro := total_pro t;
         total_carb := add (total_carb t) (of_Z 5);
         total_fat := total_fat t |}
  end.

Definition estimate_nutrition (ings : list string) : option NutritionModel :=
  let t := fold_left estimate_step ings
             {| total_cals := S754_zero false; total_pro := S754_zero false;
                total_carb := S754_zero false; total_fat := S754_zero false |} in
  match int_of_float (total_cals t) with
  | Some c =>
      Some {| calories := c;
              protein := round1 (total_pro t);
              carbs := round1 (total_carb t);
              fat := round1 (total_fat t) |}
  | None => None
  end.

End Binary64.

(** ** Notions used in the statements *)

(** The contribution of an unmatched ingredient. *)
Definition fallback : hint := (40, 0, 5, 0)%Q.

Definition zero_totals : totals :=
  {| total_cals := 0; total_pro := 0; total_carb := 0; total_fat := 0 |}%Q.

Definition hint_of_totals (t : totals) : hint :=
  (total_cals t, total_pro t, total_carb t, total_fat t).

(** The first entry of the lexicon, in declaration order, whose key occurs
    in [k]. *)
Definition first_match (k : string) : option (string * hint) :=
  find (fun kh => PyStr.contains (fst kh) k) CALORIE_HINTS.

(** The contribution the specification attributes to the ingredient whose
    lowercased text is [k]: that of the first matching key, or the
    fallback. *)
Definition attributed (k : string) : hint :=
  match first_match k with
  | Some (_, h) => h
  | None => fallback
  end.

Definition add_hint (t : totals) (h : hint) : totals :=
  let '(c, p, cb, f) := h in
  {| total_cals := total_cals t + c;
     total_pro := total_pro t + p;
     total_carb := total_carb t + cb;
     total_fat := total_fat t + f |}%Q.

(** Numeric equality of floats, componentwise. *)
Definition hint_eq (h1 h2 : hint) : Prop :=
  let '(c1, p1, cb1, f1) := h1 in
  let '(c2, p2, cb2, f2) := h2 in
  (c1 == c2 /\ p1 == p2 /\ cb1 == cb2 /\ f1 == f2)%Q.

Definition totals_eq (t1 t2 : totals) : Prop :=
  hint_eq (hint_of_totals t1) (hint_of_totals t2).

Definition hint_nonneg (h : hint) : Prop :=
  let '(c, p, cb, f) := h in (0 <= c /\ 0 <= p /\ 0 <= cb /\ 0 <= f)%Q.

Definition hint_cals (h : hint) : Q := let '(c, _, _, _) := h in c.
Definition hint_pro (h : hint) : Q := let '(_, p, _, _) := h in p.
Definition hint_carb (h : hint) : Q := let '(_, _, cb, _) := h in cb.
Definition hint_fat (h : hint) : Q := let '(_, _, _, f) := h in f.

(** The exact sum of one component of the contributions attributed to the
    elements of a list. *)
Definition sum_of (component : hint -> Q) (ings : list string) : Q :=
  fold_right Qplus 0%Q
    (map (fun raw => component (attributed (PyStr.lower raw))) ings).

(** A decimal with at most one fractional digit. *)
Definition is_tenths (x : Q) : Prop := exists n : Z, (x == n # 10)%Q.

(** Equality of two [NutritionModel]s as Python compares them: the integers
    are equal and the floats are numerically equal. *)
Definition nutrition_eq (n1 n2 : NutritionModel) : Prop :=
  calories n1 = calories n2
  /\ (protein n1 == protein n2)%Q
  /\ (carbs n1 == carbs n2)%Q
  /\ (fat n1 == fat n2)%Q.

(** The binary64 reading of nutrition facts computed exactly: each float
    field becomes the float nearest to its value. *)
Definition to_binary64 (n : NutritionModel) : Binary64.NutritionModel :=
  {| Binary64.calories := calories n;
     Binary64.protein := Binary64.of_decimal (protein n);
     Binary64.carbs := Binary64.of_decimal (carbs n);
     Binary64.fat := Binary64.of_decimal (fat n) |}.

(** [clamp], as the specification writes the time heuristic. *)
Definition clamp (x lower upper : Z) : Z :=
  if (x <? lower)%Z then lower else if (upper <? x)%Z then upper else x.

(** A string made of whitespace only (the empty string included). *)
Fixpoint all_space (s : string) : bool :=
  match s with
  | EmptyString => true
  | String c s' => PyStr.is_space c && all_space s'
  end.

(** Every comma-separated segment of the text trims to the empty string. *)
Definition blank (text : string) : bool :=
  forallb (fun i => negb (PyStr.truthy (PyStr.strip i))) (PyStr.split "," text).

(** The first, respectively the last, character exists and is not
    whitespace. *)
Definition starts_nonspace (s : string) : bool :=
  match s with
  | EmptyString => false
  | String c _ => negb (PyStr.is_space c)
  end.

Fixpoint ends_nonspace (s : string) : bool :=
  match s with
  | EmptyString => false
  | String c EmptyString => negb (PyStr.is_space c)
  | String _ s' => ends_nonspace s'
  end.

(** [c in s] for one character. *)
Fixpoint has_char (c : ascii) (s : string) : bool :=
  match s with
  | EmptyString => false
  | String d s' => Ascii.eqb d c || has_char c s'
  end.

(** The shape of an element of a parsed list: not empty, no whitespace at
    either end, no comma. *)
Definition well_formed_ingredient (i : string) : bool :=
  starts_nonspace i && ends_nonspace i && negb (has_char "," i).

(** The calories attributed to one ingredient, as an integer. *)
Definition kcal_of (raw : string) : Z :=
  int_of_float (hint_cals (attributed (PyStr.lower raw))).

Definition kcal_sum (ings : list string) : Z :=
  fold_right Z.add 0%Z (map kcal_of ings).

(** The number of characters of a list of strings. *)
Definition total_length (l : list string) : nat :=
  fold_right (fun seg n => String.length seg + n) 0 l.

(** *** Notions for the binary64 run *)

(** The binary64 sum, in list order, of one component of the contributions
    attributed to the elements of a list; nothing is rounded to a decimal on
    the way. *)
Definition float_sum_of (component : hint -> Q) (ings : list string)
  : spec_float :=
  fold_left
    (fun acc raw =>
       Binary64.add acc
         (Binary64.of_decimal (component (attributed (PyStr.lower raw)))))
    ings (S754_zero false).

(** A float that is not NaN and has a clear sign bit: +0, a positive finite
    float or +infinity. *)
Definition plus_signed (x : spec_float) : bool :=
  match x with
  | S754_zero false | S754_infinity false | S754_finite false _ _ => true
  | _ => false
  end.
















(** A text made of ASCII characters only. *)
Fixpoint ascii_text (s : string) : bool :=
  match s with
  | EmptyString => true
  | String c s' => (nat_of_ascii c <? 128) && ascii_text s'
  end.

(** ** Facts about the string primitives *)

Section StringFacts.

Import PyStr.

Lemma is_space_lower_char (c : ascii) : is_space (lower_char c) = is_space c.
Proof. destruct c as [[] [] [] [] [] [] [] []]; reflexivity. Qed.

Lemma lower_lstrip (s : string) : lower (lstrip s) = lstrip (lower s).
Proof.
  induction s as [|c s IH]; simpl; [reflexivity|].
  rewrite is_space_lower_char.
  destruct (is_space c); [exact IH | reflexivity].
Qed.

Lemma lower_rstrip (s : string) : lower (rstrip s) = rstrip (lower s).
Proof.
  induction s as [|c s IH]; simpl; [reflexivity|].
  rewrite <- IH, is_space_lower_char.
  destruct (rstrip s) as [|d r]; simpl.
  - destruct (is_space c); reflexivity.
  - reflexivity.
Qed.

Lemma lower_strip (s : string) : lower (strip s) = strip (lower s).
Proof. unfold strip. now rewrite lower_rstrip, lower_lstrip. Qed.

Lemma truthy_false (s : string) : truthy s = false <-> s = "".
Proof. destruct s; simpl; split; congruence. Qed.

Lemma truthy_true (s : string) : truthy s = true <-> s <> "".
Proof. destruct s; simpl; split; congruence. Qed.

Lemma prefix_empty_l (s : string) : String.prefix "" s = true.
Proof. destruct s; reflexivity. Qed.

Lemma prefix_empty_r (sub : string) :
  truthy sub = true -> String.prefix sub "" = false.
Proof. destruct sub; simpl; congruence. Qed.

Lemma contains_empty_r (sub : string) :
  truthy sub = true -> contains sub "" = false.
Proof. destruct sub; simpl; congruence. Qed.

Lemma prefix_cons (a c : ascii) (sub s : string) :
  String.prefix (String a sub) (String c s)
  = Ascii.eqb a c && String.prefix sub s.
Proof.
  simpl. destruct (ascii_dec a c) as [->|Hne].
  - now rewrite Ascii.eqb_refl.
  - apply Ascii.eqb_neq in Hne. now rewrite Hne.
Qed.

Lemma ends_nonspace_truthy (s : string) :
  ends_nonspace s = true -> truthy s = true.
Proof. destruct s; simpl; congruence. Qed.

(** Leading whitespace of the haystack is irrelevant to a needle that does
    not start with whitespace. *)
Lemma contains_lstrip (sub s : string) :
  starts_nonspace sub = true -> contains sub (lstrip s) = contains sub s.
Proof.
  intros Hsub. destruct sub as [|a sub]; [discriminate|].
  simpl in Hsub. apply negb_true_iff in Hsub.
  induction s as [|c s IH]; [reflexivity|].
  change (lstrip (String c s)) with (if is_space c then lstrip s else String c s).
  destruct (is_space c) eqn:Hc; [|reflexivity].
  rewrite IH.
  change (contains (String a sub) (String c s))
    with (String.prefix (String a sub) (String c s) || contains (String a sub) s).
  rewrite prefix_cons.
  destruct (Ascii.eqb a c) eqn:Hac; [|reflexivity].
  apply Ascii.eqb_eq in Hac. congruence.
Qed.

(** Trailing whitespace of the haystack is irrelevant to a needle that does
    not end with whitespace. *)
Lemma prefix_rstrip (sub s : string) :
  ends_nonspace sub = true ->
  String.prefix sub (rstrip s) = String.prefix sub s.
Proof.
  revert sub. induction s as [|c s IH]; intros sub Hsub; [reflexivity|].
  destruct sub as [|a sub]; [discriminate|].
  rewrite prefix_cons.
  change (rstrip (String c s)) with
    (match rstrip s with
     | EmptyString => if is_space c then EmptyString else String c EmptyString
     | r => String c r
     end).
  destruct sub as [|b sub].
  - simpl in Hsub. apply negb_true_iff in Hsub.
    rewrite prefix_empty_l, andb_true_r.
    destruct (rstrip s) as [|d r].
    + destruct (is_space c) eqn:Hc.
      * simpl. symmetry. apply Ascii.eqb_neq. congruence.
      * now rewrite prefix_cons, prefix_empty_l, andb_true_r.
    + now rewrite prefix_cons, prefix_empty_l, andb_true_r.
  - assert (Hsub' : ends_nonspace (String b sub) = true) by exact Hsub.
    specialize (IH _ Hsub').
    destruct (rstrip s) as [|d r].
    + rewrite <- IH.
      replace (String.prefix (String b sub) "") with false by reflexivity.
      rewrite andb_false_r.
      destruct (is_space c); [reflexivity|].
      rewrite prefix_cons.
      replace (String.prefix (String b sub) "") with false by reflexivity.
      now rewrite andb_false_r.
    + rewrite prefix_cons. now rewrite IH.
Qed.

Lemma contains_rstrip (sub s : string) :
  ends_nonspace sub = true -> contains sub (rstrip s) = contains sub s.
Proof.
  intros Hsub. pose proof (ends_nonspace_truthy _ Hsub) as Hne.
  induction s as [|c s IH]; [reflexivity|].
  change (contains sub (String c s))
    with (String.prefix sub (String c s) || contains sub s).
  rewrite <- (prefix_rstrip sub (String c s) Hsub), <- IH.
  change (rstrip (String c s)) with
    (match rstrip s with
     | EmptyString => if is_space c then EmptyString else String c EmptyString
     | r => String c r
     end).
  destruct (rstrip s) as [|d r].
  - rewrite (contains_empty_r _ Hne), orb_false_r.
    destruct (is_space c).
    + now rewrite (contains_empty_r _ Hne), (prefix_empty_r _ Hne).
    + change (contains sub (String c ""))
        with (String.prefix sub (String c "") || contains sub "").
      now rewrite (contains_empty_r _ Hne), orb_false_r.
  - reflexivity.
Qed.

Lemma contains_strip (sub s : string) :
  starts_nonspace sub = true -> ends_nonspace sub = true ->
  contains sub (strip s) = contains sub s.
Proof.
  intros Hs He. unfold strip.
  now rewrite contains_rstrip, contains_lstrip.
Qed.

End StringFacts.

(** ** Facts about the lexicon and its scan *)

Section ScanFacts.

Variable hints : list (string * hint).

Lemma first_key_in_find (k : string) :
  first_key_in hints k
  = option_map fst (find (fun kh => PyStr.contains (fst kh) k) hints).
Proof.
  induction hints as [|[key h] rest IH]; [reflexivity|].
  cbn [first_key_in find fst].
  destruct (PyStr.contains key k); [reflexivity | exact IH].
Qed.

Lemma getitem_In (key : string) (h : hint) :
  NoDup (map fst hints) -> In (key, h) hints -> getitem hints key = Some h.
Proof.
  induction hints as [|[key0 h0] rest IH]; intros Hnd Hin; [contradiction|].
  cbn [map fst] in Hnd. inversion Hnd as [|? ? Hnotin Hnd']; subst.
  cbn [getitem]. destruct Hin as [Heq|Hin].
  - inversion Heq; subst. now rewrite String.eqb_refl.
  - destruct (String.eqb key0 key) eqn:Hk.
    + apply String.eqb_eq in Hk. subst key0.
      exfalso. apply Hnotin. now apply (in_map fst) in Hin.
    + now apply IH.
Qed.

Lemma find_agree (f g : string * hint -> bool) :
  (forall kh, In kh hints -> f kh = g kh) -> find f hints = find g hints.
Proof.
  induction hints as [|kh rest IH]; intros Hfg; [reflexivity|].
  cbn [find]. rewrite (Hfg kh (or_introl eq_refl)).
  destruct (g kh); [reflexivity|].
  apply IH. intros kh' Hin. apply Hfg. now right.
Qed.

(** [find] returns the first entry that satisfies the test. *)
Lemma find_first (f : string * hint -> bool) (kh : string * hint) :
  find f hints = Some kh ->
  exists pre post,
    hints = pre ++ kh :: post /\ f kh = true
    /\ forall kh', In kh' pre -> f kh' = false.
Proof.
  induction hints as [|kh0 rest IH]; intros Hfind; [discriminate|].
  cbn [find] in Hfind. destruct (f kh0) eqn:Hf0.
  - inversion Hfind; subst. exists [], rest. repeat split; [assumption|].
    intros ? [].
  - destruct (IH Hfind) as (pre & post & -> & Hf & Hpre).
    exists (kh0 :: pre), post. repeat split; [assumption|].
    intros kh' [<-|Hin]; [assumption | now apply Hpre].
Qed.

End ScanFacts.

Lemma CALORIE_HINTS_keys_NoDup : NoDup (map fst CALORIE_HINTS).
Proof.
  cbn [map fst CALORIE_HINTS].
  repeat (constructor; [cbn [In]; intuition discriminate|]).
  constructor.
Qed.

Lemma CALORIE_HINTS_keys_shape (key : string) (h : hint) :
  In (key, h) CALORIE_HINTS ->
  starts_nonspace key = true /\ ends_nonspace key = true.
Proof.
  assert (Hall : forallb (fun kh => starts_nonspace (fst kh)
                                    && ends_nonspace (fst kh))
                         CALORIE_HINTS = true) by reflexivity.
  intros Hin. rewrite forallb_forall in Hall.
  specialize (Hall _ Hin). now apply andb_true_iff in Hall.
Qed.

Lemma CALORIE_HINTS_nonneg (key : string) (h : hint) :
  In (key, h) CALORIE_HINTS -> hint_nonneg h.
Proof.
  assert (Hall : forallb (fun kh : string * hint =>
                            let '(c, p, cb, f) := snd kh in
                            Qle_bool 0 c && Qle_bool 0 p
                            && Qle_bool 0 cb && Qle_bool 0 f)
                         CALORIE_HINTS = true) by reflexivity.
  intros Hin. rewrite forallb_forall in Hall.
  specialize (Hall _ Hin). cbn [snd] in Hall.
  destruct h as [[[c p] cb] f].
  rewrite !andb_true_iff, !Qle_bool_iff in Hall.
  cbn. tauto.
Qed.

(** Stripping the ingredient does not change which keys occur in it. *)
Lemma first_match_strip (raw : string) :
  first_match (PyStr.lower (PyStr.strip raw)) = first_match (PyStr.lower raw).
Proof.
  unfold first_match. apply find_agree. intros [key h] Hin. cbn [fst].
  destruct (CALORIE_HINTS_keys_shape _ _ Hin) as [Hs He].
  rewrite lower_strip. now apply contains_strip.
Qed.

Lemma first_match_In (k key : string) (h : hint) :
  first_match k = Some (key, h) ->
  In (key, h) CALORIE_HINTS /\ PyStr.contains key k = true.
Proof. intros H. apply find_some in H. exact H. Qed.

(** The loop body, through the specification's view of the scan: the inner
    scan finds the key of [first_match], that key is a true value, and
    indexing the lexicon with it yields the entry declared with it. *)
Lemma estimate_step_first_match (t : totals) (raw : string) :
  estimate_step t raw
  = match first_match (PyStr.lower raw) with
    | Some (_, (c, p, cb, f)) =>
        {| total_cals := total_cals t + c;
           total_pro := total_pro t + p;
           total_carb := total_carb t + cb;
           total_fat := total_fat t + f |}
    | None =>
        {| total_cals := total_cals t + 40;
           total_pro := total_pro t;
           total_carb := total_carb t + 5;
           total_fat := total_fat t |}
    end%Q.
Proof.
  unfold estimate_step. rewrite first_key_in_find.
  fold (first_match (PyStr.lower (PyStr.strip raw))).
  rewrite first_match_strip.
  destruct (first_match (PyStr.lower raw)) as [[key h]|] eqn:Hfm;
    cbn [option_map fst]; [|reflexivity].
  destruct (first_match_In _ _ _ Hfm) as [Hin _].
  destruct (CALORIE_HINTS_keys_shape _ _ Hin) as [_ He].
  rewrite (ends_nonspace_truthy _ He).
  rewrite (getitem_In _ _ _ CALORIE_HINTS_keys_NoDup Hin).
  reflexivity.
Qed.

(** ** Facts about the numeric conversions *)

Section NumericFacts.

Local Open Scope Q_scope.

Lemma int_of_float_floor (x : Q) :
  int_of_float x
  = if (0 <=? Qnum x)%Z then Qfloor x else (- Qfloor (- x))%Z.
Proof.
  destruct x as [n d]. unfold int_of_float, Qfloor, Qopp. cbn [Qnum Qden].
  destruct (0 <=? n)%Z eqn:Hn.
  - apply Z.leb_le in Hn. apply Z.quot_div_nonneg; lia.
  - apply Z.leb_gt in Hn.
    rewrite <- (Z.opp_involutive n) at 1.
    rewrite Z.quot_opp_l by lia.
    f_equal. apply Z.quot_div_nonneg; lia.
Qed.

Lemma Qnum_nonneg_comp (x y : Q) :
  x == y -> (0 <=? Qnum x)%Z = (0 <=? Qnum y)%Z.
Proof.
  intros H. unfold Qeq in H.
  destruct (0 <=? Qnum x)%Z eqn:Hx, (0 <=? Qnum y)%Z eqn:Hy; try reflexivity;
    rewrite ?Z.leb_le, ?Z.leb_gt in *; nia.
Qed.

Lemma int_of_float_comp (x y : Q) :
  x == y -> int_of_float x = int_of_float y.
Proof.
  intros H. rewrite !int_of_float_floor, (Qnum_nonneg_comp x y H).
  destruct (0 <=? Qnum y)%Z.
  - now apply Qfloor_comp.
  - f_equal. apply Qfloor_comp. now rewrite H.
Qed.

Lemma round_half_even_comp (x y : Q) :
  x == y -> round_half_even x = round_half_even y.
Proof.
  intros H. unfold round_half_even.
  rewrite (Qfloor_comp x y H).
  assert (Hc : (x - inject_Z (Qfloor y) ?= 1 # 2)
               = (y - inject_Z (Qfloor y) ?= 1 # 2))
    by (apply Qcompare_comp; [now rewrite H | reflexivity]).
  now rewrite Hc.
Qed.

Lemma round1_comp (x y : Q) : x == y -> round1 x = round1 y.
Proof.
  intros H. unfold round1. f_equal.
  apply round_half_even_comp. now rewrite H.
Qed.

Lemma int_of_float_nonneg (x : Q) : 0 <= x -> (0 <= int_of_float x)%Z.
Proof.
  intros H. rewrite int_of_float_floor.
  assert (Hn : (0 <= Qnum x)%Z)
    by (unfold Qle in H; cbn in H; lia).
  apply Z.leb_le in Hn. rewrite Hn.
  change 0%Z with (Qfloor 0). now apply Qfloor_resp_le.
Qed.

Lemma round_half_even_nonneg (x : Q) : 0 <= x -> (0 <= round_half_even x)%Z.
Proof.
  intros H. unfold round_half_even.
  assert (Hf : (0 <= Qfloor x)%Z)
    by (change 0%Z with (Qfloor 0); now apply Qfloor_resp_le).
  destruct (x - inject_Z (Qfloor x) ?= 1 # 2); [|lia|lia].
  destruct (Z.even (Qfloor x)); lia.
Qed.

Lemma round1_nonneg (x : Q) : 0 <= x -> 0 <= round1 x.
Proof.
  intros H. unfold round1.
  assert (Hr : (0 <= round_half_even (x * 10))%Z).
  { apply round_half_even_nonneg.
    setoid_replace 0 with (0 * 10) by ring.
    apply Qmult_le_compat_r; [assumption | discriminate]. }
  unfold Qle. cbn. lia.
Qed.

Lemma round_half_even_inject_Z (n : Z) : round_half_even (inject_Z n) = n.
Proof.
  unfold round_half_even. rewrite Qfloor_Z.
  assert (Hc : (inject_Z n - inject_Z n ?= 1 # 2) = Lt).
  { rewrite <- Qlt_alt. setoid_replace (inject_Z n - inject_Z n) with 0 by ring.
    reflexivity. }
  now rewrite Hc.
Qed.

(** Rounding to one decimal leaves a decimal with one fractional digit as it
    is. *)
Lemma round1_tenths (x : Q) : is_tenths x -> round1 x == x.
Proof.
  intros [n Hn]. unfold round1.
  assert (Hx : x * 10 == inject_Z n).
  { rewrite Hn. unfold Qeq, Qmult, inject_Z. cbn. lia. }
  rewrite (round_half_even_comp _ _ Hx), round_half_even_inject_Z.
  now symmetry.
Qed.

Lemma is_tenths_plus (x y : Q) : is_tenths x -> is_tenths y -> is_tenths (x + y).
Proof.
  intros [n Hn] [m Hm]. exists (n + m)%Z. rewrite Hn, Hm.
  unfold Qeq, Qplus. cbn. lia.
Qed.

Lemma is_tenths_comp (x y : Q) : x == y -> is_tenths x -> is_tenths y.
Proof. intros H [n Hn]. exists n. now rewrite <- H. Qed.

Lemma is_tenths_0 : is_tenths 0.
Proof. exists 0%Z. reflexivity. Qed.

End NumericFacts.

(** ** Facts about the nutrition estimator *)

Section EstimatorFacts.

Local Open Scope Q_scope.

Lemma CALORIE_HINTS_tenths (key : string) (h : hint) :
  In (key, h) CALORIE_HINTS ->
  is_tenths (hint_cals h) /\ is_tenths (hint_pro h)
  /\ is_tenths (hint_carb h) /\ is_tenths (hint_fat h).
Proof.
  pose (tenths_bool := fun x : Q => Qeq_bool x (Qfloor (x * 10) # 10)).
  assert (Hb : forall x, tenths_bool x = true -> is_tenths x).
  { intros x Hx. exists (Qfloor (x * 10)). now apply Qeq_bool_iff. }
  assert (Hall : forallb (fun kh : string * hint =>
                            tenths_bool (hint_cals (snd kh))
                            && tenths_bool (hint_pro (snd kh))
                            && tenths_bool (hint_carb (snd kh))
                            && tenths_bool (hint_fat (snd kh)))
                         CALORIE_HINTS = true) by reflexivity.
  intros Hin. rewrite forallb_forall in Hall.
  specialize (Hall _ Hin). cbn [snd] in Hall.
  rewrite !andb_true_iff in Hall.
  destruct Hall as [[[H1 H2] H3] H4]. auto.
Qed.

Lemma attributed_nonneg (k : string) : hint_nonneg (attributed k).
Proof.
  unfold attributed. destruct (first_match k) as [[key h]|] eqn:Hfm.
  - apply first_match_In in Hfm. now apply (CALORIE_HINTS_nonneg key).
  - cbn. repeat split; discriminate.
Qed.

Lemma attributed_tenths (k : string) :
  is_tenths (hint_cals (attributed k)) /\ is_tenths (hint_pro (attributed k))
  /\ is_tenths (hint_carb (attributed k)) /\ is_tenths (hint_fat (attributed k)).
Proof.
  unfold attributed. destruct (first_match k) as [[key h]|] eqn:Hfm.
  - apply first_match_In in Hfm. now apply (CALORIE_HINTS_tenths key).
  - cbn. repeat split;
      [exists 400%Z | exists 0%Z | exists 50%Z | exists 0%Z]; reflexivity.
Qed.

(** One turn of the loop adds the attributed contribution to the totals. *)
Lemma estimate_step_attributed (t : totals) (raw : string) :
  totals_eq (estimate_step t raw)
            (add_hint t (attributed (PyStr.lower raw))).
Proof.
  rewrite estimate_step_first_match. unfold attributed.
  destruct (first_match (PyStr.lower raw)) as [[key [[[c p] cb] f]]|];
    unfold totals_eq, hint_eq, hint_of_totals, add_hint, fallback; cbn;
    repeat split; ring.
Qed.

Lemma estimate_step_components (t : totals) (raw : string) :
  let h := attributed (PyStr.lower raw) in
  total_cals (estimate_step t raw) == total_cals t + hint_cals h
  /\ total_pro (estimate_step t raw) == total_pro t + hint_pro h
  /\ total_carb (estimate_step t raw) == total_carb t + hint_carb h
  /\ total_fat (estimate_step t raw) == total_fat t + hint_fat h.
Proof.
  pose proof (estimate_step_attributed t raw) as H.
  destruct (attributed (PyStr.lower raw)) as [[[c p] cb] f].
  exact H.
Qed.

(** The loop as a whole adds the four exact sums to the initial totals. *)
Lemma fold_estimate_step (ings : list string) (t : totals) :
  let r := fold_left estimate_step ings t in
  total_cals r == total_cals t + sum_of hint_cals ings
  /\ total_pro r == total_pro t + sum_of hint_pro ings
  /\ total_carb r == total_carb t + sum_of hint_carb ings
  /\ total_fat r == total_fat t + sum_of hint_fat ings.
Proof.
  revert t. induction ings as [|raw ings IH]; intros t.
  - cbn. repeat split; ring.
  - cbn [fold_left].
    destruct (IH (estimate_step t raw)) as (H1 & H2 & H3 & H4).
    destruct (estimate_step_components t raw) as (S1 & S2 & S3 & S4).
    cbv zeta. unfold sum_of in *. cbn [map fold_right].
    rewrite H1, H2, H3, H4, S1, S2, S3, S4.
    repeat split; ring.
Qed.

(** The estimator is the conversion of the four exact sums. *)
Lemma estimate_nutrition_sums (ings : list string) :
  estimate_nutrition ings
  = {| calories := int_of_float (sum_of hint_cals ings);
       protein := round1 (sum_of hint_pro ings);
       carbs := round1 (sum_of hint_carb ings);
       fat := round1 (sum_of hint_fat ings) |}.
Proof.
  unfold estimate_nutrition.
  destruct (fold_estimate_step ings zero_totals) as (H1 & H2 & H3 & H4).
  cbv zeta in *. cbn [zero_totals total_cals total_pro total_carb total_fat] in *.
  fold zero_totals.
  f_equal;
    [apply int_of_float_comp | apply round1_comp
     | apply round1_comp | apply round1_comp];
    match goal with H : ?x == _ |- ?x == _ => rewrite H; ring end.
Qed.


Lemma sum_of_nonneg (component : hint -> Q) (ings : list string) :
  (forall k, 0 <= component (attributed k)) -> 0 <= sum_of component ings.
Proof.
  intros Hc. unfold sum_of. induction ings as [|raw ings IH]; cbn [map fold_right].
  - discriminate.
  - exact (Qplus_le_compat 0 _ 0 _ (Hc _) IH).
Qed.

Lemma sum_of_tenths (component : hint -> Q) (ings : list string) :
  (forall k, is_tenths (component (attributed k))) ->
  is_tenths (sum_of component ings).
Proof.
  intros Hc. unfold sum_of. induction ings as [|raw ings IH]; cbn [map fold_right].
  - apply is_tenths_0.
  - apply is_tenths_plus; [apply Hc | exact IH].
Qed.

End EstimatorFacts.

(** ** The nutrition estimator: matching, order independence, sign *)

(** The scan of the specification returns the first entry, in declaration
    order, whose key occurs in the text. *)
Lemma first_match_spec (k key : string) (h : hint) :
  first_match k = Some (key, h) ->
  exists pre post,
    CALORIE_HINTS = pre ++ (key, h) :: post
    /\ PyStr.contains key k = true
    /\ forall kh, In kh pre -> PyStr.contains (fst kh) k = false.
Proof. intros H. exact (find_first _ _ _ H). Qed.

Lemma first_match_none (k : string) :
  first_match k = None ->
  forall kh, In kh CALORIE_HINTS -> PyStr.contains (fst kh) k = false.
Proof. intros H kh Hin. exact (find_none _ _ H kh Hin). Qed.

(** C1. For every ingredient string, the estimator adds to the totals the
    contribution of the first lexicon key, in declaration order, that occurs
    in the lowercased ingredient, and the fallback contribution
    (40, 0, 5, 0) when no key occurs in it; the nutrition of a one-element
    list is that contribution.  The single ingredient "chicken rice bowl",
    in which "rice" occurs too, receives the "chicken" contribution only, and
    the unmatched "kale" receives the fallback. *)
Theorem first_match_contribution :
  (forall (raw : string) (t : totals),
      totals_eq (estimate_step t raw)
                (add_hint t (attributed (PyStr.lower raw))))
  /\ (forall raw : string,
         nutrition_eq
           (estimate_nutrition [raw])
           (let '(c, p, cb, f) := attributed (PyStr.lower raw) in
            {| calories := int_of_float c;
               protein := p; carbs := cb; fat := f |}))
  /\ (forall raw : string,
         let k := PyStr.lower raw in
         let absent := fun kh : string * hint =>
                         negb (PyStr.contains (fst kh) k) in
         match first_match k with
         | Some (key, h) =>
             attributed k = h
             /\ PyStr.contains key k = true
             /\ exists pre post,
                 CALORIE_HINTS = pre ++ (key, h) :: post
                 /\ forallb absent pre = true
         | None =>
             attributed k = fallback
             /\ forallb absent CALORIE_HINTS = true
         end)
  /\ fallback = (40, 0, 5, 0)%Q
  /\ first_match (PyStr.lower "chicken rice bowl")
     = Some ("chicken", (165, 31, 0, 3.6)%Q)
  /\ PyStr.contains "rice" (PyStr.lower "chicken rice bowl") = true
  /\ nutrition_eq
       (estimate_nutrition ["chicken rice bowl"])
       {| calories := 165; protein := 31; carbs := 0; fat := 3.6 |}
  /\ first_match (PyStr.lower "kale") = None
  /\ nutrition_eq
       (estimate_nutrition ["kale"])
       {| calories := 40; protein := 0; carbs := 5; fat := 0 |}.
Proof.
  split; [exact (fun raw t => estimate_step_attributed t raw)|].
  split.
  - intros raw. rewrite estimate_nutrition_sums.
    unfold sum_of. cbn [map fold_right].
    pose proof (attributed_tenths (PyStr.lower raw)) as (T1 & T2 & T3 & T4).
    destruct (attributed (PyStr.lower raw)) as [[[c p] cb] f].
    cbn [hint_cals hint_pro hint_carb hint_fat] in *.
    unfold nutrition_eq. cbn [calories protein carbs fat].
    split; [apply int_of_float_comp; ring|].
    repeat split.
    + rewrite (round1_comp (p + 0) p) by ring. now apply round1_tenths.
    + rewrite (round1_comp (cb + 0) cb) by ring. now apply round1_tenths.
    + rewrite (round1_comp (f + 0) f) by ring. now apply round1_tenths.
  - split; [|repeat split; reflexivity].
    intros raw. cbv zeta. unfold attributed.
    destruct (first_match (PyStr.lower raw)) as [[key h]|] eqn:Hfm.
    + destruct (first_match_spec _ _ _ Hfm) as (pre & post & Hsplit & Hin & Hpre).
      split; [reflexivity|]. split; [exact Hin|].
      exists pre, post. split; [exact Hsplit|].
      apply forallb_forall. intros kh Hkh. now rewrite (Hpre kh Hkh).
    + split; [reflexivity|].
      apply forallb_forall. intros kh Hkh.
      now rewrite (first_match_none _ Hfm kh Hkh).
Qed.

(** ** The time heuristic *)

(** C3. For a list of n ingredients the time is clamp(10 + 5 n, 15, 75): it
    lies between 15 and 75, does not decrease when n grows, and is 15 for
    n = 1, 25 for n = 3 and 75 for n = 20. *)
Theorem compute_time_clamp (ings : list string) :
  let n := Z.of_nat (List.length ings) in
  compute_time ings = clamp (10 + 5 * n) 15 75
  /\ (15 <= compute_time ings <= 75)%Z
  /\ (forall ings' : list string,
         List.length ings <= List.length ings' ->
         (compute_time ings <= compute_time ings')%Z)
  /\ (List.length ings = 1 -> compute_time ings = 15%Z)
  /\ (List.length ings = 3 -> compute_time ings = 25%Z)
  /\ (List.length ings = 20 -> compute_time ings = 75%Z).
Proof.
  cbv zeta. unfold compute_time, clamp.
  repeat split.
  - destruct (10 + 5 * Z.of_nat (List.length ings) <? 15)%Z eqn:H1;
      [apply Z.ltb_lt in H1 | apply Z.ltb_ge in H1].
    + lia.
    + destruct (75 <? 10 + 5 * Z.of_nat (List.length ings))%Z eqn:H2;
        [apply Z.ltb_lt in H2 | apply Z.ltb_ge in H2]; lia.
  - lia.
  - lia.
  - intros ings' Hle. lia.
  - intros ->. reflexivity.
  - intros ->. reflexivity.
  - intros ->. reflexivity.
Qed.

Lemma compute_time_clamp_witness :
  (compute_time ["egg"] <= compute_time ["egg"; "rice"])%Z
  /\ compute_time ["kale"] = 15%Z
  /\ compute_time ["chicken"; "rice"; "beans"] = 25%Z
  /\ compute_time (repeat "egg" 20) = 75%Z.
Proof.
  split; [|split; [|split]].
  - destruct (compute_time_clamp ["egg"]) as (_ & _ & Hmono & _).
    apply Hmono. simpl. lia.
  - destruct (compute_time_clamp ["kale"]) as (_ & _ & _ & H1 & _).
    apply H1. reflexivity.
  - destruct (compute_time_clamp ["chicken"; "rice"; "beans"])
      as (_ & _ & _ & _ & H3 & _).
    apply H3. reflexivity.
  - destruct (compute_time_clamp (repeat "egg" 20))
      as (_ & _ & _ & _ & _ & H20).
    apply H20. reflexivity.
Defined.

(** ** The title *)

Lemma append_nil_r (s : string) : (s ++ "")%string = s.
Proof. induction s as [|c s IH]; cbn; [reflexivity | now rewrite IH]. Qed.

Lemma append_assoc (s1 s2 s3 : string) :
  ((s1 ++ s2) ++ s3)%string = (s1 ++ (s2 ++ s3))%string.
Proof. induction s1 as [|c s1 IH]; cbn; [reflexivity | now rewrite IH]. Qed.

(** C4. The title is built from the ingredients that are not blank, each
    trimmed and title-cased: the placeholder when none remains, "Ignited X
    Delight" for exactly one, "Flame-Kissed X & Y" for exactly two, and
    "Flame-Kissed X & Y Medley" for more than two, whatever the third and
    later ones are. *)
Theorem craft_title_cases (ings : list string) :
  craft_title ings
  = match title_core ings with
    | [] => "FlareChef Creation"
    | [x] => "Ignited " ++ x ++ " Delight"
    | [x; y] => "Flame-Kissed " ++ x ++ " & " ++ y
    | x :: y :: _ :: _ => "Flame-Kissed " ++ x ++ " & " ++ y ++ " Medley"
    end%string
  /\ title_core ings
     = map (fun i => PyStr.title (PyStr.strip i))
           (filter (fun i => PyStr.truthy (PyStr.strip i)) ings)
  /\ title_core ["chicken"; " "; "rice"; "beans"; ""; "egg"]
     = ["Chicken"; "Rice"; "Beans"; "Egg"]
  /\ craft_title (parse_ingredients "chicken, rice, beans, egg")
     = "Flame-Kissed Chicken & Rice Medley".
Proof.
  split; [|repeat split; reflexivity].
  unfold craft_title.
  destruct (title_core ings) as [|x [|y [|z rest]]]; cbn.
  - reflexivity.
  - reflexivity.
  - now rewrite append_nil_r.
  - now rewrite append_assoc.
Qed.

(** ** The route [/api/generate] *)

Section RouteFacts.

Lemma filter_nil_forallb {A : Type} (f : A -> bool) (l : list A) :
  filter f l = [] <-> forallb (fun x => negb (f x)) l = true.
Proof.
  induction l as [|x l IH]; cbn; [tauto|].
  destruct (f x); cbn; [split; discriminate | exact IH].
Qed.

Lemma parse_ingredients_blank (text : string) :
  parse_ingredients text = [] <-> blank text = true.
Proof.
  unfold parse_ingredients, blank. rewrite <- filter_nil_forallb.
  destruct (filter _ _); cbn; split; congruence.
Qed.

Lemma parse_ingredients_length (text : string) :
  (List.length (parse_ingredients text) =? 0) = blank text.
Proof.
  destruct (blank text) eqn:Hb.
  - apply parse_ingredients_blank in Hb. now rewrite Hb.
  - destruct (parse_ingredients text) eqn:Hp; [|reflexivity].
    apply parse_ingredients_blank in Hp. congruence.
Qed.

(** Every parsed ingredient is a non-empty string. *)
Lemma parse_ingredients_truthy (text : string) :
  Forall (fun i => PyStr.truthy i = true) (parse_ingredients text).
Proof.
  unfold parse_ingredients. apply Forall_map, Forall_forall.
  intros i Hin. apply filter_In in Hin. exact (proj2 Hin).
Qed.

Lemma lstrip_all_space (s : string) : all_space s = true -> PyStr.lstrip s = "".
Proof.
  induction s as [|c s IH]; cbn; [reflexivity|].
  destruct (PyStr.is_space c); cbn; [exact IH | discriminate].
Qed.

Lemma split_all_space (s : string) :
  all_space s = true -> PyStr.split "," s = [s].
Proof.
  induction s as [|c s IH]; cbn; [reflexivity|].
  intros H. apply andb_true_iff in H. destruct H as [Hc Hs].
  destruct (Ascii.eqb c ",") eqn:Hcomma.
  - apply Ascii.eqb_eq in Hcomma. subst c. discriminate.
  - now rewrite (IH Hs).
Qed.

Lemma all_space_blank (text : string) : all_space text = true -> blank text = true.
Proof.
  intros H. unfold blank. rewrite (split_all_space _ H). cbn.
  unfold PyStr.strip. now rewrite (lstrip_all_space _ H).
Qed.

Lemma truthy_append (s1 s2 : string) :
  PyStr.truthy s1 = true -> PyStr.truthy (s1 ++ s2)%string = true.
Proof. destruct s1; cbn; congruence. Qed.

Lemma join_truthy (sep x : string) (rest : list string) :
  PyStr.truthy x = true -> PyStr.truthy (PyStr.join sep (x :: rest)) = true.
Proof.
  intros Hx. cbn [PyStr.join]. destruct rest; [exact Hx | now apply truthy_append].
Qed.

Lemma validate_spec (raw : string) :
  GenerateRequest.validate raw
  = if String.length raw <? 2 then None
    else Some {| GenerateRequest.ingredients := raw |}.
Proof.
  unfold GenerateRequest.validate.
  destruct (2 <=? String.length raw) eqn:H1, (String.length raw <? 2) eqn:H2;
    try reflexivity;
    rewrite ?Nat.leb_le, ?Nat.leb_gt, ?Nat.ltb_lt, ?Nat.ltb_ge in *; lia.
Qed.

Lemma generate_recipe_blank (payload : GenerateRequest.t) :
  blank (GenerateRequest.ingredients payload) = true ->
  generate_recipe payload
  = HTTPException 400 "Please provide at least one ingredient.".
Proof.
  intros H. unfold generate_recipe. now rewrite parse_ingredients_length, H.
Qed.

Lemma generate_recipe_not_blank (payload : GenerateRequest.t) :
  blank (GenerateRequest.ingredients payload) = false ->
  let ings := parse_ingredients (GenerateRequest.ingredients payload) in
  generate_recipe payload
  = Ok {| title := craft_title ings;
          description := craft_description ings;
          ingredients := ings;
          steps := craft_steps ings;
          time_minutes := compute_time ings;
          nutrition := estimate_nutrition ings;
          image_url := Some (image_url_of ings) |}.
Proof.
  intros H. unfold generate_recipe. now rewrite parse_ingredients_length, H.
Qed.

End RouteFacts.

(** On sample lists, among them two orders of the same seven ingredients,
    the estimator run in binary64 returns the floats nearest to the values
    of the exact model. *)
Lemma binary64_agrees_on_samples :
  Forall (fun ings => Binary64.estimate_nutrition ings
                      = Some (to_binary64 (estimate_nutrition ings)))
    [ [];
      ["kale"];
      ["chicken"; "rice"];
      ["rice"; "chicken"];
      ["butter"; "butter"; "butter"];
      ["chicken"; "rice"; "beans"; "egg"];
      ["chicken"; "rice"; "beans"; "egg"; "olive oil"; "butter"; "cheese"];
      ["cheese"; "butter"; "egg"; "olive oil"; "rice"; "beans"; "chicken"] ].
Proof. repeat constructor. Qed.

(** C5. The route answers "chicken, rice" with calories 371, protein 35.3,
    carbs 45.0, fat 4.0, the title "Flame-Kissed Chicken & Rice" and 20
    minutes; it answers "kale", which matches no key, with the nutrition
    (40, 0, 5, 0) and the title "Ignited Kale Delight".  Run in binary64, the
    estimator returns the floats denoted by these literals. *)
Theorem generate_examples :
  (exists r : RecipeModel,
      post_generate "chicken, rice" = Ok r
      /\ nutrition_eq (nutrition r)
           {| calories := 371; protein := 35.3; carbs := 45.0; fat := 4.0 |}
      /\ title r = "Flame-Kissed Chicken & Rice"
      /\ time_minutes r = 20%Z
      /\ Binary64.estimate_nutrition (ingredients r)
         = Some {| Binary64.calories := 371;
                   Binary64.protein := Binary64.of_decimal 35.3;
                   Binary64.carbs := Binary64.of_decimal 45.0;
                   Binary64.fat := Binary64.of_decimal 4.0 |})
  /\ (exists r : RecipeModel,
         post_generate "kale" = Ok r
         /\ nutrition_eq (nutrition r)
              {| calories := 40; protein := 0; carbs := 5; fat := 0 |}
         /\ title r = "Ignited Kale Delight"
         /\ Binary64.estimate_nutrition (ingredients r)
            = Some {| Binary64.calories := 40;
                      Binary64.protein := Binary64.of_decimal 0;
                      Binary64.carbs := Binary64.of_decimal 5;
                      Binary64.fat := Binary64.of_decimal 0 |}).
Proof.
  split; eexists; (split; [reflexivity|]); repeat split; reflexivity.
Qed.

(** C9. The request model requires at least two characters: a text of length
    0 or 1 is rejected when the model is built, before the handler and its
    parser run, so the answer is never the handler's own 400 error.  This
    holds for the empty text, for a lone space, and for "a", which the
    handler would have parsed to the one-element list ["a"] and accepted. *)
Theorem short_text_rejected_by_model (raw : string) :
  String.length raw < 2 ->
  GenerateRequest.validate raw = None
  /\ post_generate raw = RequestValidationError
  /\ (forall detail, post_generate raw <> HTTPException 400 detail)
  /\ parse_ingredients "a" = ["a"]
  /\ exists r, generate_recipe {| GenerateRequest.ingredients := "a" |} = Ok r.
Proof.
  intros Hlen.
  assert (Hv : GenerateRequest.validate raw = None).
  { rewrite validate_spec. apply Nat.ltb_lt in Hlen. now rewrite Hlen. }
  assert (Hp : post_generate raw = RequestValidationError)
    by (unfold post_generate; now rewrite Hv).
  split; [exact Hv|]. split; [exact Hp|].
  split; [intros detail; rewrite Hp; discriminate|].
  split; [reflexivity|].
  eexists. reflexivity.
Qed.

Lemma short_text_rejected_by_model_witness :
  post_generate "a" = RequestValidationError
  /\ post_generate " " = RequestValidationError
  /\ post_generate "" = RequestValidationError.
Proof.
  assert (H1 : String.length "a" < 2) by (simpl; lia).
  assert (H2 : String.length " " < 2) by (simpl; lia).
  assert (H3 : String.length "" < 2) by (simpl; lia).
  split; [|split].
  - exact (proj1 (proj2 (short_text_rejected_by_model "a" H1))).
  - exact (proj1 (proj2 (short_text_rejected_by_model " " H2))).
  - exact (proj1 (proj2 (short_text_rejected_by_model "" H3))).
Defined.

(** C10. In every recipe the handler returns, the image URL is the Unsplash
    template followed by the first three ingredients at most, joined by "+".
    The ingredient list is not empty and its elements are not empty, so the
    joined query is a true value and "food" is not substituted; the URL
    starts with the template, so it is a true value and [FALLBACK_IMAGE] is
    not substituted. *)
Theorem image_url_from_ingredients
        (payload : GenerateRequest.t) (r : RecipeModel) :
  generate_recipe payload = Ok r ->
  let query := PyStr.join "+" (firstn 3 (ingredients r)) in
  image_url r
  = Some ("https://source.unsplash.com/featured/?" ++ query)%string
  /\ ingredients r <> []
  /\ PyStr.truthy query = true
  /\ PyStr.or_else query "food" = query
  /\ PyStr.truthy ("https://source.unsplash.com/featured/?" ++ query)%string
     = true
  /\ image_url r <> Some FALLBACK_IMAGE.
Proof.
  intros Hgen. cbv zeta.
  destruct (blank (GenerateRequest.ingredients payload)) eqn:Hb.
  - rewrite (generate_recipe_blank _ Hb) in Hgen. discriminate.
  - rewrite (generate_recipe_not_blank _ Hb) in Hgen. cbv zeta in Hgen.
    inversion Hgen as [Hr]. clear Hgen.
    cbn [image_url ingredients].
    pose proof (parse_ingredients_truthy (GenerateRequest.ingredients payload))
      as Hall.
    assert (Hne : parse_ingredients (GenerateRequest.ingredients payload) <> []).
    { intros Hnil. apply parse_ingredients_blank in Hnil. congruence. }
    destruct (parse_ingredients (GenerateRequest.ingredients payload))
      as [|x rest] eqn:Hp; [contradiction|].
    inversion Hall as [|? ? Hx _]; subst.
    assert (Hq : PyStr.truthy (PyStr.join "+" (firstn 3 (x :: rest))) = true)
      by (cbn [firstn]; now apply join_truthy).
    assert (Ho : PyStr.or_else (PyStr.join "+" (firstn 3 (x :: rest))) "food"
                 = PyStr.join "+" (firstn 3 (x :: rest)))
      by (unfold PyStr.or_else; now rewrite Hq).
    unfold image_url_of. rewrite Ho.
    repeat split; try assumption; try discriminate; reflexivity.
Qed.

Lemma image_url_from_ingredients_witness :
  image_url
    {| title := craft_title ["chicken"; "rice"; "beans"; "egg"];
       description := craft_description ["chicken"; "rice"; "beans"; "egg"];
       ingredients := ["chicken"; "rice"; "beans"; "egg"];
       steps := craft_steps ["chicken"; "rice"; "beans"; "egg"];
       time_minutes := compute_time ["chicken"; "rice"; "beans"; "egg"];
       nutrition := estimate_nutrition ["chicken"; "rice"; "beans"; "egg"];
       image_url := Some (image_url_of ["chicken"; "rice"; "beans"; "egg"]) |}
  = Some "https://source.unsplash.com/featured/?chicken+rice+beans".
Proof.
  exact (proj1 (image_url_from_ingredients
                  {| GenerateRequest.ingredients := "chicken, rice, beans, egg" |}
                  _ eq_refl)).
Defined.

(** C2, as amended.  A text that is whitespace only, or whose comma-separated
    segments all trim to the empty string, is rejected: by the request model
    when it is shorter than two characters, and by the handler's 400 error
    otherwise.  A text of at least two characters whose parsed ingredient
    list is not empty is answered with a recipe; the handler raises no other
    error.  A text shorter than two characters is rejected by the request
    model whatever it parses to. *)
Theorem generate_rejects_blank_only (raw : string) :
  (all_space raw = true -> blank raw = true)
  /\ (blank raw = true <-> parse_ingredients raw = [])
  /\ (blank raw = true ->
      post_generate raw
      = if String.length raw <? 2 then RequestValidationError
        else HTTPException 400 "Please provide at least one ingredient.")
  /\ (parse_ingredients raw <> [] -> 2 <= String.length raw ->
      exists r, post_generate raw = Ok r)
  /\ (String.length raw < 2 -> post_generate raw = RequestValidationError)
  /\ post_generate " , ,"
     = HTTPException 400 "Please provide at least one ingredient."
  /\ post_generate "" = RequestValidationError.
Proof.
  split; [apply all_space_blank|].
  split; [symmetry; apply parse_ingredients_blank|].
  unfold post_generate. rewrite validate_spec.
  split; [|split; [|split]].
  - intros Hb. destruct (String.length raw <? 2); [reflexivity|].
    now apply generate_recipe_blank.
  - intros Hne Hlen. apply Nat.ltb_ge in Hlen. rewrite Hlen.
    eexists. apply generate_recipe_not_blank. cbn [GenerateRequest.ingredients].
    destruct (blank raw) eqn:Hb; [|reflexivity].
    apply parse_ingredients_blank in Hb. contradiction.
  - intros Hlen. apply Nat.ltb_lt in Hlen. now rewrite Hlen.
  - split; reflexivity.
Qed.

Lemma generate_rejects_blank_only_witness :
  post_generate "  	 "
  = HTTPException 400 "Please provide at least one ingredient."
  /\ (exists r, post_generate "egg, bread" = Ok r)
  /\ post_generate "a" = RequestValidationError.
Proof.
  split; [|split].
  - destruct (generate_rejects_blank_only "  	 ") as (Hs & _ & Hb & _).
    exact (Hb (Hs eq_refl)).
  - destruct (generate_rejects_blank_only "egg, bread") as (_ & _ & _ & Hok & _).
    apply Hok; [discriminate | simpl; lia].
  - destruct (generate_rejects_blank_only "a") as (_ & _ & _ & _ & Hshort & _).
    apply Hshort. simpl. lia.
Defined.

(** C2, as stated, fails on the text "a": its parsed ingredient list is
    ["a"], not empty, and yet the request is rejected. *)
Lemma generate_nonempty_rejected :
  parse_ingredients "a" <> []
  /\ ~ (exists r, post_generate "a" = Ok r).
Proof.
  split; [discriminate|].
  intros [r Hr]. discriminate Hr.
Qed.

(** ** Further facts about trimming and splitting *)

Section TrimFacts.

Lemma lstrip_fix (s : string) : starts_nonspace s = true -> PyStr.lstrip s = s.
Proof.
  destruct s as [|c s]; [discriminate|]. cbn. intros H.
  apply negb_true_iff in H. now rewrite H.
Qed.

Lemma rstrip_fix (s : string) : ends_nonspace s = true -> PyStr.rstrip s = s.
Proof.
  induction s as [|c s IH]; [discriminate|].
  destruct s as [|d s].
  - cbn. intros H. apply negb_true_iff in H. now rewrite H.
  - intros H. change (ends_nonspace (String d s) = true) in H.
    change (PyStr.rstrip (String c (String d s)))
      with (match PyStr.rstrip (String d s) with
            | EmptyString =>
                if PyStr.is_space c then EmptyString else String c EmptyString
            | r => String c r
            end).
    now rewrite (IH H).
Qed.

Lemma lstrip_starts (s : string) :
  PyStr.truthy (PyStr.lstrip s) = true ->
  starts_nonspace (PyStr.lstrip s) = true.
Proof.
  induction s as [|c s IH]; [discriminate|]. cbn.
  destruct (PyStr.is_space c) eqn:Hc; [exact IH|].
  intros _. cbn. now rewrite Hc.
Qed.

Lemma rstrip_ends (s : string) :
  PyStr.truthy (PyStr.rstrip s) = true ->
  ends_nonspace (PyStr.rstrip s) = true.
Proof.
  induction s as [|c s IH]; [discriminate|].
  change (PyStr.rstrip (String c s))
    with (match PyStr.rstrip s with
          | EmptyString =>
              if PyStr.is_space c then EmptyString else String c EmptyString
          | r => String c r
          end).
  destruct (PyStr.rstrip s) as [|d r].
  - destruct (PyStr.is_space c) eqn:Hc; [discriminate|].
    intros _. cbn. now rewrite Hc.
  - intros _. apply IH. reflexivity.
Qed.

Lemma rstrip_starts (s : string) :
  starts_nonspace s = true -> starts_nonspace (PyStr.rstrip s) = true.
Proof.
  destruct s as [|c s]; [discriminate|]. intros H.
  change (PyStr.rstrip (String c s))
    with (match PyStr.rstrip s with
          | EmptyString =>
              if PyStr.is_space c then EmptyString else String c EmptyString
          | r => String c r
          end).
  cbn in H. apply negb_true_iff in H.
  destruct (PyStr.rstrip s); [rewrite H|]; cbn; now rewrite H.
Qed.

Lemma rstrip_truthy (s : string) :
  starts_nonspace s = true -> PyStr.truthy (PyStr.rstrip s) = true.
Proof.
  intros H. apply rstrip_starts in H.
  destruct (PyStr.rstrip s); [discriminate | reflexivity].
Qed.

(** A non-empty result of [strip] has no whitespace at either end. *)
Lemma strip_trimmed (s : string) :
  PyStr.truthy (PyStr.strip s) = true ->
  starts_nonspace (PyStr.strip s) = true /\ ends_nonspace (PyStr.strip s) = true.
Proof.
  unfold PyStr.strip. intros H.
  assert (Hl : PyStr.truthy (PyStr.lstrip s) = true).
  { destruct (PyStr.lstrip s); [discriminate H | reflexivity]. }
  split; [apply rstrip_starts, lstrip_starts, Hl | now apply rstrip_ends].
Qed.

Lemma strip_fix (s : string) :
  starts_nonspace s = true -> ends_nonspace s = true -> PyStr.strip s = s.
Proof.
  intros Hs He. unfold PyStr.strip. now rewrite (lstrip_fix _ Hs), rstrip_fix.
Qed.

Lemma strip_idempotent (s : string) :
  PyStr.strip (PyStr.strip s) = PyStr.strip s.
Proof.
  destruct (PyStr.truthy (PyStr.strip s)) eqn:Ht.
  - destruct (strip_trimmed _ Ht). now apply strip_fix.
  - apply truthy_false in Ht. now rewrite Ht.
Qed.

Lemma has_char_lstrip (c : ascii) (s : string) :
  has_char c s = false -> has_char c (PyStr.lstrip s) = false.
Proof.
  induction s as [|d s IH]; [reflexivity|]. cbn. intros H.
  apply orb_false_iff in H. destruct H as [Hd Hs].
  destruct (PyStr.is_space d); [now apply IH|].
  cbn. now rewrite Hd, Hs.
Qed.

Lemma has_char_rstrip (c : ascii) (s : string) :
  has_char c s = false -> has_char c (PyStr.rstrip s) = false.
Proof.
  induction s as [|d s IH]; [reflexivity|]. intros H.
  cbn in H. apply orb_false_iff in H. destruct H as [Hd Hs].
  specialize (IH Hs).
  change (PyStr.rstrip (String d s))
    with (match PyStr.rstrip s with
          | EmptyString =>
              if PyStr.is_space d then EmptyString else String d EmptyString
          | r => String d r
          end).
  destruct (PyStr.rstrip s) as [|e r].
  - destruct (PyStr.is_space d); [reflexivity|]. cbn. now rewrite Hd.
  - change (has_char c (String d (String e r)))
      with (Ascii.eqb d c || has_char c (String e r)).
    now rewrite Hd, IH.
Qed.

Lemma has_char_strip (c : ascii) (s : string) :
  has_char c s = false -> has_char c (PyStr.strip s) = false.
Proof. intros H. now apply has_char_rstrip, has_char_lstrip. Qed.

Lemma split_not_nil (sep : ascii) (s : string) : PyStr.split sep s <> [].
Proof.
  destruct s as [|c s]; cbn; [discriminate|].
  destruct (Ascii.eqb c sep); [discriminate|].
  destruct (PyStr.split sep s); discriminate.
Qed.

(** No segment of a split contains the separator. *)
Lemma split_has_char (sep : ascii) (s : string) :
  Forall (fun seg => has_char sep seg = false) (PyStr.split sep s).
Proof.
  induction s as [|c s IH]; cbn.
  - repeat constructor.
  - destruct (Ascii.eqb c sep) eqn:Hc.
    + constructor; [reflexivity | exact IH].
    + destruct (PyStr.split sep s) as [|seg segs]; [repeat constructor; cbn; now rewrite Hc|].
      inversion IH as [|? ? Hseg Hsegs]; subst.
      constructor; [cbn; now rewrite Hc, Hseg | exact Hsegs].
Qed.

(** A text without the separator is its own single segment. *)
Lemma split_no_sep (sep : ascii) (s : string) :
  has_char sep s = false -> PyStr.split sep s = [s].
Proof.
  induction s as [|c s IH]; [reflexivity|]. cbn. intros H.
  apply orb_false_iff in H. destruct H as [Hc Hs].
  now rewrite Hc, (IH Hs).
Qed.

(** Splitting a text at a separator splits the list of segments there. *)
Lemma split_app (sep : ascii) (a b : string) :
  PyStr.split sep (a ++ String sep b)%string
  = PyStr.split sep a ++ PyStr.split sep b.
Proof.
  induction a as [|c a IH]; cbn.
  - now rewrite Ascii.eqb_refl.
  - destruct (Ascii.eqb c sep); [now rewrite IH|].
    rewrite IH.
    pose proof (split_not_nil sep a) as Hne.
    destruct (PyStr.split sep a) as [|seg segs]; [contradiction | reflexivity].
Qed.

End TrimFacts.

(** ** Further facts about the parser *)

Section ParserFacts.

Lemma parse_ingredients_forall (text : string) :
  Forall (fun i => well_formed_ingredient i = true) (parse_ingredients text).
Proof.
  unfold parse_ingredients. apply Forall_map, Forall_forall.
  intros seg Hin. apply filter_In in Hin. destruct Hin as [Hin Ht].
  destruct (strip_trimmed _ Ht) as [Hs He].
  unfold well_formed_ingredient. rewrite Hs, He. cbn.
  apply negb_true_iff, has_char_strip.
  pose proof (split_has_char "," text) as Hall.
  rewrite Forall_forall in Hall. now apply Hall.
Qed.

Lemma well_formed_parts (i : string) :
  well_formed_ingredient i = true ->
  starts_nonspace i = true /\ ends_nonspace i = true
  /\ has_char "," i = false.
Proof.
  unfold well_formed_ingredient. rewrite !andb_true_iff, negb_true_iff. tauto.
Qed.

Lemma well_formed_strip (i : string) :
  well_formed_ingredient i = true ->
  PyStr.strip i = i /\ PyStr.truthy (PyStr.strip i) = true.
Proof.
  intros H. destruct (well_formed_parts _ H) as (Hs & He & _).
  rewrite (strip_fix _ Hs He). split; [reflexivity|].
  now apply ends_nonspace_truthy.
Qed.

(** On a list of well-formed ingredients the filters of the generators keep
    everything and their trimming changes nothing. *)
Lemma well_formed_filter (l : list string) :
  Forall (fun i => well_formed_ingredient i = true) l ->
  filter (fun i => PyStr.truthy (PyStr.strip i)) l = l
  /\ map PyStr.strip l = l.
Proof.
  induction 1 as [|i l Hi _ [IH1 IH2]]; [split; reflexivity|].
  destruct (well_formed_strip _ Hi) as [Hfix Ht].
  cbn. rewrite Ht, IH1, IH2, Hfix. split; reflexivity.
Qed.

Lemma parse_ingredients_single (i : string) :
  well_formed_ingredient i = true -> parse_ingredients i = [i].
Proof.
  intros H. destruct (well_formed_parts _ H) as (_ & _ & Hc).
  destruct (well_formed_strip _ H) as [Hfix Ht].
  unfold parse_ingredients. rewrite (split_no_sep _ _ Hc).
  cbn [filter]. rewrite Ht. cbn [map]. now rewrite Hfix.
Qed.

Lemma parse_ingredients_app (a b : string) :
  parse_ingredients (a ++ String "," b)%string
  = parse_ingredients a ++ parse_ingredients b.
Proof.
  unfold parse_ingredients. now rewrite split_app, filter_app, map_app.
Qed.

Lemma parse_ingredients_leading_space (c : ascii) (s : string) :
  PyStr.is_space c = true ->
  parse_ingredients (String c s) = parse_ingredients s.
Proof.
  intros Hc. unfold parse_ingredients. cbn [PyStr.split].
  assert (Hne : Ascii.eqb c "," = false).
  { apply Ascii.eqb_neq. intros ->. discriminate. }
  rewrite Hne.
  pose proof (split_not_nil "," s) as Hnil.
  destruct (PyStr.split "," s) as [|seg segs]; [contradiction|].
  assert (Hstrip : PyStr.strip (String c seg) = PyStr.strip seg)
    by (unfold PyStr.strip; cbn; now rewrite Hc).
  cbn [filter]. rewrite Hstrip.
  destruct (PyStr.truthy (PyStr.strip seg)); cbn [map]; now rewrite ?Hstrip.
Qed.

Lemma join_cons2 (sep x y : string) (rest : list string) :
  PyStr.join sep (x :: y :: rest)
  = (x ++ sep ++ PyStr.join sep (y :: rest))%string.
Proof. reflexivity. Qed.

Lemma parse_ingredients_join (l : list string) :
  Forall (fun i => well_formed_ingredient i = true) l ->
  parse_ingredients (PyStr.join ", " l) = l
  /\ parse_ingredients (PyStr.join "," l) = l.
Proof.
  induction 1 as [|x l Hx Hl [IH1 IH2]]; [split; reflexivity|].
  destruct l as [|y l].
  - cbn [PyStr.join]. split; now apply parse_ingredients_single.
  - rewrite !join_cons2.
    change (x ++ ", " ++ PyStr.join ", " (y :: l))%string
      with (x ++ String "," (String " " (PyStr.join ", " (y :: l))))%string.
    change (x ++ "," ++ PyStr.join "," (y :: l))%string
      with (x ++ String "," (PyStr.join "," (y :: l)))%string.
    rewrite !parse_ingredients_app, (parse_ingredients_single _ Hx).
    rewrite parse_ingredients_leading_space by reflexivity.
    now rewrite IH1, IH2.
Qed.

(** What the handler returns, when it returns a recipe. *)
Lemma generate_recipe_Ok (payload : GenerateRequest.t) (r : RecipeModel) :
  generate_recipe payload = Ok r ->
  let ings := parse_ingredients (GenerateRequest.ingredients payload) in
  ings <> []
  /\ r = {| title := craft_title ings;
            description := craft_description ings;
            ingredients := ings;
            steps := craft_steps ings;
            time_minutes := compute_time ings;
            nutrition := estimate_nutrition ings;
            image_url := Some (image_url_of ings) |}.
Proof.
  intros Hgen. cbv zeta.
  destruct (blank (GenerateRequest.ingredients payload)) eqn:Hb.
  - rewrite (generate_recipe_blank _ Hb) in Hgen. discriminate.
  - rewrite (generate_recipe_not_blank _ Hb) in Hgen. cbv zeta in Hgen.
    split; [|now inversion Hgen].
    intros Hnil. apply parse_ingredients_blank in Hnil. congruence.
Qed.

Lemma split_total_length (sep : ascii) (s : string) :
  total_length (PyStr.split sep s) + List.length (PyStr.split sep s)
  = String.length s + 1.
Proof.
  induction s as [|c s IH]; [reflexivity|]. cbn [PyStr.split].
  unfold total_length in *.
  destruct (Ascii.eqb c sep).
  - cbn [fold_right List.length String.length] in *. lia.
  - pose proof (split_not_nil sep s) as Hne.
    destruct (PyStr.split sep s) as [|seg segs]; [contradiction|].
    cbn [fold_right List.length String.length] in *. lia.
Qed.

Lemma filter_total_length (f : string -> bool) (l : list string) :
  (forall seg, f seg = true -> 1 <= String.length seg) ->
  List.length (filter f l) <= total_length l
  /\ List.length (filter f l) <= List.length l.
Proof.
  intros Hf. unfold total_length.
  induction l as [|seg l [IH1 IH2]]; [cbn; lia|].
  cbn [filter fold_right List.length].
  destruct (f seg) eqn:Hseg; cbn [List.length];
    [specialize (Hf _ Hseg)|]; lia.
Qed.

Lemma parse_ingredients_length_bound_aux (text : string) :
  2 * List.length (parse_ingredients text) <= String.length text + 1.
Proof.
  unfold parse_ingredients. rewrite length_map.
  pose proof (split_total_length "," text) as Hlen.
  destruct (filter_total_length
              (fun i => PyStr.truthy (PyStr.strip i)) (PyStr.split "," text))
    as [H1 H2].
  - intros seg Hseg. destruct seg; [discriminate Hseg | cbn; lia].
  - lia.
Qed.

End ParserFacts.

(** ** The parser: shape of the result, composition, round trip *)

(** X1. Every element of a parsed ingredient list is a non-empty string
    that [strip] leaves unchanged (no whitespace at either end) and that
    contains no comma. *)
Theorem parsed_ingredients_well_formed (text : string) :
  Forall (fun i => i <> ""
                   /\ PyStr.strip i = i
                   /\ starts_nonspace i = true
                   /\ ends_nonspace i = true
                   /\ has_char "," i = false)
         (parse_ingredients text).
Proof.
  eapply Forall_impl; [|apply parse_ingredients_forall].
  intros i Hi. cbv beta in Hi.
  destruct (well_formed_parts _ Hi) as (Hs & He & Hc).
  destruct (well_formed_strip _ Hi) as [Hfix Ht].
  repeat split; try assumption.
  intros ->. discriminate.
Qed.

(** X2. Parsing distributes over a comma: the list parsed from [a,b] is the
    list parsed from [a] followed by the list parsed from [b].  A comma at the
    beginning or at the end of the text therefore adds nothing. *)
Theorem parse_ingredients_comma (a b : string) :
  parse_ingredients (a ++ "," ++ b)%string
  = parse_ingredients a ++ parse_ingredients b
  /\ parse_ingredients (a ++ ",")%string = parse_ingredients a
  /\ parse_ingredients ("," ++ b)%string = parse_ingredients b.
Proof.
  split; [exact (parse_ingredients_app a b)|]. split.
  - rewrite (parse_ingredients_app a ""). apply app_nil_r.
  - exact (parse_ingredients_app "" b).
Qed.

(** X3. Joining a list of well-formed ingredients with ", " (as the
    description does) or with "," and parsing the result gives the list
    back; in particular a parsed list is a fixed point of joining and
    parsing again. *)
Theorem parse_join_round_trip :
  (forall l : list string,
      Forall (fun i => well_formed_ingredient i = true) l ->
      parse_ingredients (PyStr.join ", " l) = l
      /\ parse_ingredients (PyStr.join "," l) = l)
  /\ (forall text : string,
         parse_ingredients (PyStr.join ", " (parse_ingredients text))
         = parse_ingredients text).
Proof.
  split; [exact parse_ingredients_join|].
  intros text. apply parse_ingredients_join, parse_ingredients_forall.
Qed.

Lemma parse_join_round_trip_witness :
  parse_ingredients (PyStr.join ", " ["olive oil"; "egg"; "rye bread"])
  = ["olive oil"; "egg"; "rye bread"].
Proof.
  apply (proj1 parse_join_round_trip ["olive oil"; "egg"; "rye bread"]).
  repeat constructor.
Defined.

(** The handler, given the ingredients of a recipe it returned joined with
    ", ", returns that recipe. *)
Lemma generate_recipe_rejoin (payload : GenerateRequest.t) (r : RecipeModel) :
  generate_recipe payload = Ok r ->
  generate_recipe
    {| GenerateRequest.ingredients := PyStr.join ", " (ingredients r) |}
  = Ok r.
Proof.
  intros Hgen. destruct (generate_recipe_Ok _ _ Hgen) as [Hne Hr].
  cbv zeta in Hne, Hr.
  set (ings := parse_ingredients (GenerateRequest.ingredients payload)) in *.
  assert (Hrt : parse_ingredients (PyStr.join ", " ings) = ings)
    by (apply parse_ingredients_join, parse_ingredients_forall).
  assert (Hi : ingredients r = ings) by (rewrite Hr; reflexivity).
  rewrite Hi.
  assert (Hb : blank (PyStr.join ", " ings) = false).
  { destruct (blank (PyStr.join ", " ings)) eqn:Hb; [|reflexivity].
    apply parse_ingredients_blank in Hb. congruence. }
  rewrite (generate_recipe_not_blank
             {| GenerateRequest.ingredients := PyStr.join ", " ings |} Hb).
  cbv zeta. cbn [GenerateRequest.ingredients]. rewrite Hrt. now rewrite Hr.
Qed.

(** X4. When the route answers a text with a recipe, it answers the
    ingredients of that recipe joined with ", " with the same recipe,
    unless the joined text is shorter than two characters (a single
    one-character ingredient), which the request model rejects. *)
Theorem post_generate_fixed_point (raw : string) (r : RecipeModel) :
  post_generate raw = Ok r ->
  post_generate (PyStr.join ", " (ingredients r))
  = if String.length (PyStr.join ", " (ingredients r)) <? 2
    then RequestValidationError
    else Ok r.
Proof.
  unfold post_generate. rewrite !validate_spec.
  destruct (String.length raw <? 2); [discriminate|].
  intros Hgen.
  destruct (String.length (PyStr.join ", " (ingredients r)) <? 2);
    [reflexivity|].
  exact (generate_recipe_rejoin _ _ Hgen).
Qed.

Lemma post_generate_fixed_point_witness :
  (exists r,
      post_generate " tofu ,, Rice," = Ok r
      /\ post_generate (PyStr.join ", " (ingredients r)) = Ok r)
  /\ (exists r,
         post_generate "a," = Ok r
         /\ post_generate (PyStr.join ", " (ingredients r))
            = RequestValidationError).
Proof.
  split; eexists; (split; [reflexivity|]).
  - exact (post_generate_fixed_point " tofu ,, Rice," _ eq_refl).
  - exact (post_generate_fixed_point "a," _ eq_refl).
Defined.

(** X5. A text of length n yields at most (n + 1) / 2 ingredients: each one
    takes a character, and two of them a comma between them. *)
Theorem parse_ingredients_length_bound (text : string) :
  2 * List.length (parse_ingredients text) <= String.length text + 1.
Proof. exact (parse_ingredients_length_bound_aux text). Qed.

(** ** The text generators on the handler's list *)

Section GeneratorFacts.

Lemma craft_title_match (ings : list string) :
  craft_title ings
  = match title_core ings with
    | [] => "FlareChef Creation"
    | [x] => "Ignited " ++ x ++ " Delight"
    | [x; y] => "Flame-Kissed " ++ x ++ " & " ++ y
    | x :: y :: _ :: _ => "Flame-Kissed " ++ x ++ " & " ++ y ++ " Medley"
    end%string.
Proof.
  unfold craft_title.
  destruct (title_core ings) as [|x [|y [|z rest]]]; cbn.
  - reflexivity.
  - reflexivity.
  - now rewrite append_nil_r.
  - now rewrite append_assoc.
Qed.

Lemma title_core_well_formed (l : list string) :
  Forall (fun i => well_formed_ingredient i = true) l ->
  title_core l = map PyStr.title l.
Proof.
  intros H. destruct (well_formed_filter _ H) as [Hf Hm].
  unfold title_core. rewrite Hf, <- (map_map PyStr.strip PyStr.title).
  now rewrite Hm.
Qed.

Lemma prefix_refl_app (s q : string) : String.prefix s (s ++ q) = true.
Proof.
  induction s as [|c s IH]; [apply prefix_empty_l|].
  cbn. destruct (ascii_dec c c); [exact IH | contradiction].
Qed.

Lemma contains_app_r (sub p s : string) :
  PyStr.contains sub s = true -> PyStr.contains sub (p ++ s) = true.
Proof.
  intros H. induction p as [|c p IH]; [exact H|].
  change (PyStr.contains sub (String c p ++ s))
    with (String.prefix sub (String c (p ++ s)) || PyStr.contains sub (p ++ s)).
  rewrite IH. apply orb_true_r.
Qed.

Lemma contains_self_app (sub q : string) :
  PyStr.contains sub (sub ++ q) = true.
Proof.
  destruct (sub ++ q)%string eqn:E.
  - destruct sub; [reflexivity | discriminate].
  - rewrite <- E.
    assert (Hp : String.prefix sub (sub ++ q) = true) by apply prefix_refl_app.
    rewrite E in *.
    change (PyStr.contains sub (String a s))
      with (String.prefix sub (String a s) || PyStr.contains sub s).
    now rewrite Hp.
Qed.

Lemma prefix_app_l (sub s q : string) :
  String.prefix sub s = true -> String.prefix sub (s ++ q) = true.
Proof.
  revert s. induction sub as [|a sub IH]; intros s Hp.
  - apply prefix_empty_l.
  - destruct s as [|b s]; [discriminate Hp|].
    rewrite prefix_cons in Hp. apply andb_true_iff in Hp.
    destruct Hp as [Hab Hp].
    change (String b s ++ q)%string with (String b (s ++ q)).
    rewrite prefix_cons, Hab. now apply IH.
Qed.

Lemma contains_app_l (sub s q : string) :
  PyStr.contains sub s = true -> PyStr.contains sub (s ++ q) = true.
Proof.
  induction s as [|c s IH]; intros H.
  - destruct sub; [destruct q; reflexivity | discriminate H].
  - change (PyStr.contains sub (String c s))
      with (String.prefix sub (String c s) || PyStr.contains sub s) in H.
    change (PyStr.contains sub (String c s ++ q))
      with (String.prefix sub (String c s ++ q)
            || PyStr.contains sub (s ++ q)).
    apply orb_true_iff in H. apply orb_true_iff.
    destruct H as [Hp|Hc]; [left; now apply prefix_app_l | right; now apply IH].
Qed.

(** An element of a list occurs in the joined text. *)
Lemma contains_join (sep i : string) (l : list string) :
  In i l -> PyStr.contains i (PyStr.join sep l) = true.
Proof.
  induction l as [|x l IH]; [contradiction|].
  intros Hin. destruct l as [|y l].
  - destruct Hin as [->|[]]. cbn [PyStr.join].
    rewrite <- (append_nil_r i) at 2. apply contains_self_app.
  - rewrite join_cons2. destruct Hin as [->|Hin].
    + apply contains_self_app.
    + apply contains_app_r, contains_app_r, IH, Hin.
Qed.

End GeneratorFacts.

(** X6. In a recipe returned by the handler the title is built from the
    ingredients of the recipe themselves, each title-cased: nothing is
    skipped, and the placeholder title is never returned. *)
Theorem recipe_title_from_ingredients
        (payload : GenerateRequest.t) (r : RecipeModel) :
  generate_recipe payload = Ok r ->
  title r <> "FlareChef Creation"
  /\ title r
     = match ingredients r with
       | [] => "FlareChef Creation"
       | [x] => "Ignited " ++ PyStr.title x ++ " Delight"
       | [x; y] => "Flame-Kissed " ++ PyStr.title x ++ " & " ++ PyStr.title y
       | x :: y :: _ :: _ =>
           "Flame-Kissed " ++ PyStr.title x ++ " & " ++ PyStr.title y
             ++ " Medley"
       end%string.
Proof.
  intros Hgen. destruct (generate_recipe_Ok _ _ Hgen) as [Hne Hr].
  cbv zeta in Hne, Hr.
  pose proof (parse_ingredients_forall (GenerateRequest.ingredients payload))
    as Hwf.
  set (ings := parse_ingredients (GenerateRequest.ingredients payload)) in *.
  assert (Ht : title r = craft_title ings) by (rewrite Hr; reflexivity).
  assert (Hi : ingredients r = ings) by (rewrite Hr; reflexivity).
  rewrite Ht, Hi, craft_title_match, (title_core_well_formed _ Hwf).
  destruct ings as [|x [|y [|z rest]]]; [contradiction| | |];
    cbn [map]; (split; [discriminate | reflexivity]).
Qed.

Lemma recipe_title_from_ingredients_witness :
  exists r,
    generate_recipe {| GenerateRequest.ingredients := "olive oil,EGG" |} = Ok r
    /\ title r = "Flame-Kissed Olive Oil & Egg".
Proof.
  eexists. split; [reflexivity|].
  exact (proj2 (recipe_title_from_ingredients
                  {| GenerateRequest.ingredients := "olive oil,EGG" |}
                  _ eq_refl)).
Defined.

(** X7. In a recipe returned by the handler the description is the fixed
    sentence around the ingredients of the recipe joined with ", ", and
    every ingredient of the recipe occurs in it. *)
Theorem recipe_description_names_ingredients
        (payload : GenerateRequest.t) (r : RecipeModel) :
  generate_recipe payload = Ok r ->
  description r
  = ("A warm, glowing recipe that turns "
       ++ PyStr.join ", " (ingredients r)
       ++ " into a cozy, restaurant-worthy dish.")%string
  /\ Forall (fun i => PyStr.contains i (description r) = true)
            (ingredients r).
Proof.
  intros Hgen. destruct (generate_recipe_Ok _ _ Hgen) as [_ Hr].
  cbv zeta in Hr.
  pose proof (parse_ingredients_forall (GenerateRequest.ingredients payload))
    as Hwf.
  set (ings := parse_ingredients (GenerateRequest.ingredients payload)) in *.
  destruct (well_formed_filter _ Hwf) as [Hf Hm].
  assert (Hd : description r
               = ("A warm, glowing recipe that turns "
                    ++ PyStr.join ", " ings
                    ++ " into a cozy, restaurant-worthy dish.")%string).
  { rewrite Hr. cbn [description]. unfold craft_description.
    now rewrite Hf, Hm. }
  assert (Hi : ingredients r = ings) by (rewrite Hr; reflexivity).
  rewrite Hi. split; [exact Hd|].
  apply Forall_forall. intros i Hin. rewrite Hd.
  apply contains_app_r, contains_app_l, contains_join, Hin.
Qed.

Lemma recipe_description_names_ingredients_witness :
  exists r,
    generate_recipe {| GenerateRequest.ingredients := "tofu, rice" |} = Ok r
    /\ Forall (fun i => PyStr.contains i (description r) = true)
              (ingredients r).
Proof.
  eexists. split; [reflexivity|].
  exact (proj2 (recipe_description_names_ingredients
                  {| GenerateRequest.ingredients := "tofu, rice" |}
                  _ eq_refl)).
Defined.

(** X8. In a recipe returned by the handler there are five steps; the
    second names the first ingredient of the recipe in lower case, so the
    word "ingredients" that stands in for an empty list is not used, and the
    other four are the same for every recipe. *)
Theorem recipe_steps_name_first_ingredient
        (payload : GenerateRequest.t) (r : RecipeModel) :
  generate_recipe payload = Ok r ->
  exists (x : string) (rest : list string),
    ingredients r = x :: rest
    /\ steps r
       = [ "Preheat a skillet until it softly shimmers like a flame.";
           ("Add " ++ PyStr.lower x
              ++ " with a drizzle of oil; sear until lightly caramelized.")%string;
           "Fold in remaining ingredients and season with salt, pepper, and a hint of heat.";
           "Simmer until flavors meld and textures are tender.";
           "Finish with fresh herbs or citrus and serve warm." ].
Proof.
  intros Hgen. destruct (generate_recipe_Ok _ _ Hgen) as [Hne Hr].
  cbv zeta in Hne, Hr.
  pose proof (parse_ingredients_forall (GenerateRequest.ingredients payload))
    as Hwf.
  destruct (parse_ingredients (GenerateRequest.ingredients payload))
    as [|x rest]; [contradiction|].
  inversion Hwf as [|? ? Hx _]; subst.
  destruct (well_formed_strip _ Hx) as [Hfix _].
  exists x, rest. split; [reflexivity|].
  cbn [steps]. unfold craft_steps. now rewrite Hfix.
Qed.

Lemma recipe_steps_name_first_ingredient_witness :
  exists r x rest,
    generate_recipe {| GenerateRequest.ingredients := " Tofu ,rice" |} = Ok r
    /\ ingredients r = x :: rest
    /\ nth 1 (steps r) ""
       = "Add tofu with a drizzle of oil; sear until lightly caramelized.".
Proof.
  destruct (recipe_steps_name_first_ingredient
              {| GenerateRequest.ingredients := " Tofu ,rice" |} _ eq_refl)
    as (x & rest & Hi & Hs).
  eexists. exists x, rest.
  split; [reflexivity|]. split; [exact Hi|].
  rewrite Hs. cbn [nth]. cbn in Hi. inversion Hi. reflexivity.
Defined.

(** ** More on the nutrition estimator *)

Section EstimatorSums.

Local Open Scope Q_scope.

Lemma int_of_float_inject_Z (z : Z) : int_of_float (inject_Z z) = z.
Proof. unfold int_of_float, inject_Z. cbn. apply Z.quot_1_r. Qed.

(** The calories of every lexicon entry and of the fallback are integers
    between 40 and 250. *)
Lemma attributed_kcal (k : string) :
  hint_cals (attributed k) == inject_Z (int_of_float (hint_cals (attributed k)))
  /\ (40 <= int_of_float (hint_cals (attributed k)) <= 250)%Z.
Proof.
  assert (Hall : forallb (fun kh : string * hint =>
                            let c := hint_cals (snd kh) in
                            Qeq_bool c (inject_Z (int_of_float c))
                            && (40 <=? int_of_float c)%Z
                            && (int_of_float c <=? 250)%Z)
                         CALORIE_HINTS = true) by reflexivity.
  unfold attributed. destruct (first_match k) as [[key h]|] eqn:Hfm.
  - apply first_match_In in Hfm. destruct Hfm as [Hin _].
    rewrite forallb_forall in Hall. specialize (Hall _ Hin).
    cbn [snd] in Hall. cbv zeta in Hall.
    rewrite !andb_true_iff, Qeq_bool_iff, !Z.leb_le in Hall. tauto.
  - cbn. split; [reflexivity | lia].
Qed.

Lemma sum_of_cals_kcal (ings : list string) :
  sum_of hint_cals ings == inject_Z (kcal_sum ings).
Proof.
  unfold sum_of, kcal_sum. induction ings as [|raw ings IH]; [reflexivity|].
  cbn [map fold_right]. rewrite IH, inject_Z_plus.
  unfold kcal_of at 1.
  now rewrite <- (proj1 (attributed_kcal (PyStr.lower raw))).
Qed.

(** The calories are the integer sum: [int] truncates nothing. *)
Lemma calories_kcal_sum (ings : list string) :
  calories (estimate_nutrition ings) = kcal_sum ings.
Proof.
  rewrite estimate_nutrition_sums. cbn [calories].
  rewrite (int_of_float_comp _ _ (sum_of_cals_kcal ings)).
  apply int_of_float_inject_Z.
Qed.

Lemma kcal_sum_app (l1 l2 : list string) :
  kcal_sum (l1 ++ l2) = (kcal_sum l1 + kcal_sum l2)%Z.
Proof.
  unfold kcal_sum. induction l1 as [|x l1 IH]; [reflexivity|].
  cbn [app map fold_right]. rewrite IH. lia.
Qed.

Lemma kcal_sum_bounds (ings : list string) :
  (40 * Z.of_nat (List.length ings) <= kcal_sum ings
   <= 250 * Z.of_nat (List.length ings))%Z.
Proof.
  unfold kcal_sum. induction ings as [|raw ings IH]; [cbn; lia|].
  cbn [map fold_right List.length].
  pose proof (proj2 (attributed_kcal (PyStr.lower raw))) as Hb.
  unfold kcal_of at 1 3. lia.
Qed.

Lemma sum_of_app (component : hint -> Q) (l1 l2 : list string) :
  sum_of component (l1 ++ l2)
  == sum_of component l1 + sum_of component l2.
Proof.
  unfold sum_of. induction l1 as [|x l1 IH]; cbn [app map fold_right].
  - ring.
  - rewrite IH. ring.
Qed.

(** The float fields carry the exact sums. *)
Lemma nutrition_exact_sums (ings : list string) :
  protein (estimate_nutrition ings) == sum_of hint_pro ings
  /\ carbs (estimate_nutrition ings) == sum_of hint_carb ings
  /\ fat (estimate_nutrition ings) == sum_of hint_fat ings.
Proof.
  rewrite estimate_nutrition_sums. cbn [protein carbs fat].
  repeat split; apply round1_tenths, sum_of_tenths; intros k;
    apply attributed_tenths.
Qed.

End EstimatorSums.

(** X9. The calories are additive: those of two lists put one after the
    other are the sum of the calories of the two.  The float fields are not:
    in binary64 the protein of one "butter" plus the protein of two is not
    the protein of three. *)
Theorem calories_app (l1 l2 : list string) :
  calories (estimate_nutrition (l1 ++ l2))
  = (calories (estimate_nutrition l1) + calories (estimate_nutrition l2))%Z
  /\ exists n1 n2 n3 : Binary64.NutritionModel,
      Binary64.estimate_nutrition ["butter"] = Some n1
      /\ Binary64.estimate_nutrition ["butter"; "butter"] = Some n2
      /\ Binary64.estimate_nutrition ["butter"; "butter"; "butter"] = Some n3
      /\ Binary64.add (Binary64.protein n1) (Binary64.protein n2)
         <> Binary64.protein n3.
Proof.
  split; [rewrite !calories_kcal_sum; apply kcal_sum_app|].
  do 3 eexists.
  split; [reflexivity|]. split; [reflexivity|]. split; [reflexivity|].
  vm_compute. discriminate.
Qed.

(** X10. The calories of a list are the sum of the integer calories of its
    elements, each between 40 (the fallback) and 250 (the largest entry of
    the lexicon): for n ingredients they lie between 40 n and 250 n. *)
Theorem calories_bounds (ings : list string) :
  calories (estimate_nutrition ings) = kcal_sum ings
  /\ Forall (fun raw => (40 <= kcal_of raw <= 250)%Z) ings
  /\ (40 * Z.of_nat (List.length ings)
      <= calories (estimate_nutrition ings)
      <= 250 * Z.of_nat (List.length ings))%Z.
Proof.
  split; [apply calories_kcal_sum|]. split.
  - apply Forall_forall. intros raw _.
    exact (proj2 (attributed_kcal (PyStr.lower raw))).
  - rewrite calories_kcal_sum. apply kcal_sum_bounds.
Qed.

(** ** Letter case and surrounding whitespace *)

Section CaseFacts.

Lemma lower_char_idempotent (c : ascii) :
  PyStr.lower_char (PyStr.lower_char c) = PyStr.lower_char c.
Proof. destruct c as [[] [] [] [] [] [] [] []]; reflexivity. Qed.

Lemma lower_char_upper_char (c : ascii) :
  PyStr.lower_char (PyStr.upper_char c) = PyStr.lower_char c.
Proof. destruct c as [[] [] [] [] [] [] [] []]; reflexivity. Qed.

Lemma lower_char_comma (c : ascii) :
  Ascii.eqb (PyStr.lower_char c) "," = Ascii.eqb c ",".
Proof. destruct c as [[] [] [] [] [] [] [] []]; reflexivity. Qed.

Lemma lower_idempotent (s : string) : PyStr.lower (PyStr.lower s) = PyStr.lower s.
Proof.
  induction s as [|c s IH]; [reflexivity|].
  cbn. now rewrite lower_char_idempotent, IH.
Qed.

Lemma lower_title_from (b : bool) (s : string) :
  PyStr.lower (PyStr.title_from b s) = PyStr.lower s.
Proof.
  revert b. induction s as [|c s IH]; intros b; [reflexivity|].
  cbn. rewrite IH. f_equal.
  destruct b; [apply lower_char_idempotent | apply lower_char_upper_char].
Qed.

Lemma truthy_lower (s : string) : PyStr.truthy (PyStr.lower s) = PyStr.truthy s.
Proof. destruct s; reflexivity. Qed.

(** The loop body reads its element through [lower] and [strip] only. *)
Lemma estimate_step_normal_form (t : totals) (a b : string) :
  PyStr.lower (PyStr.strip a) = PyStr.lower (PyStr.strip b) ->
  estimate_step t a = estimate_step t b.
Proof. intros H. unfold estimate_step. now rewrite H. Qed.

Lemma estimate_nutrition_map (f : string -> string) (l : list string) :
  (forall raw, PyStr.lower (PyStr.strip (f raw)) = PyStr.lower (PyStr.strip raw)) ->
  estimate_nutrition (map f l) = estimate_nutrition l.
Proof.
  intros Hf. unfold estimate_nutrition.
  generalize ({| total_cals := 0; total_pro := 0;
                 total_carb := 0; total_fat := 0 |}%Q).
  induction l as [|raw l IH]; intros t; [reflexivity|].
  cbn [map fold_left].
  rewrite (estimate_step_normal_form t (f raw) raw (Hf raw)).
  apply IH.
Qed.

Lemma split_lower (s : string) :
  PyStr.split "," (PyStr.lower s) = map PyStr.lower (PyStr.split "," s).
Proof.
  induction s as [|c s IH]; [reflexivity|].
  cbn [PyStr.lower PyStr.split]. rewrite lower_char_comma, IH.
  destruct (Ascii.eqb c ","); [reflexivity|].
  destruct (PyStr.split "," s); reflexivity.
Qed.

Lemma parse_ingredients_lower (text : string) :
  parse_ingredients (PyStr.lower text)
  = map PyStr.lower (parse_ingredients text).
Proof.
  unfold parse_ingredients. rewrite split_lower.
  induction (PyStr.split "," text) as [|seg segs IH]; [reflexivity|].
  cbn [map filter].
  rewrite <- lower_strip, truthy_lower.
  destruct (PyStr.truthy (PyStr.strip seg)); cbn [map];
    now rewrite IH, <- ?lower_strip.
Qed.

End CaseFacts.

(** X11. The estimator ignores letter case and surrounding whitespace:
    lowercasing or trimming the ingredients does not change the nutrition,
    nor does title-casing ingredients written in ASCII, and lowercasing the
    text of a request lowercases the parsed ingredients and leaves the
    nutrition and the time unchanged. *)
Theorem nutrition_case_insensitive :
  (forall l : list string,
      estimate_nutrition (map PyStr.lower l) = estimate_nutrition l
      /\ estimate_nutrition (map PyStr.strip l) = estimate_nutrition l
      /\ (Forall (fun i => ascii_text i = true) l ->
          estimate_nutrition (map PyStr.title l) = estimate_nutrition l))
  /\ (forall text : string,
         parse_ingredients (PyStr.lower text)
         = map PyStr.lower (parse_ingredients text)
         /\ estimate_nutrition (parse_ingredients (PyStr.lower text))
            = estimate_nutrition (parse_ingredients text)
         /\ compute_time (parse_ingredients (PyStr.lower text))
            = compute_time (parse_ingredients text)).
Proof.
  assert (Hlow : forall raw,
             PyStr.lower (PyStr.strip (PyStr.lower raw))
             = PyStr.lower (PyStr.strip raw))
    by (intros raw; now rewrite <- lower_strip, lower_idempotent).
  split.
  - intros l. split; [|split; [|intros _]]; apply estimate_nutrition_map.
    + exact Hlow.
    + intros raw. now rewrite strip_idempotent.
    + intros raw. unfold PyStr.title.
      now rewrite !lower_strip, lower_title_from.
  - intros text. rewrite parse_ingredients_lower.
    split; [reflexivity|]. split.
    + now apply estimate_nutrition_map.
    + unfold compute_time. now rewrite length_map.
Qed.

Lemma nutrition_case_insensitive_witness :
  estimate_nutrition (map PyStr.title ["sALMON"; " tofu "])
  = estimate_nutrition ["sALMON"; " tofu "].
Proof.
  apply (proj1 nutrition_case_insensitive ["sALMON"; " tofu "]).
  repeat constructor.
Defined.

(** ** The image URL for any list *)

(** X12. For every list, empty or not, the image URL is the Unsplash
    template followed by the query, which is "food" when the first three
    elements joined with "+" give the empty string; it is never
    [FALLBACK_IMAGE]; and the elements after the third do not enter it. *)
Theorem image_url_of_any_list (ings : list string) :
  image_url_of ings
  = ("https://source.unsplash.com/featured/?"
       ++ PyStr.or_else (PyStr.join "+" (firstn 3 ings)) "food")%string
  /\ image_url_of ings <> FALLBACK_IMAGE
  /\ image_url_of [] = "https://source.unsplash.com/featured/?food"
  /\ (forall more : list string,
         3 <= List.length ings ->
         image_url_of (ings ++ more) = image_url_of ings).
Proof.
  split; [reflexivity|]. split; [discriminate|]. split; [reflexivity|].
  intros more Hlen. unfold image_url_of.
  rewrite firstn_app.
  replace (3 - List.length ings) with 0 by lia.
  now rewrite firstn_O, app_nil_r.
Qed.

Lemma image_url_of_any_list_witness :
  image_url_of (["tofu"; "rice"; "egg"] ++ ["kale"; "beans"])
  = image_url_of ["tofu"; "rice"; "egg"].
Proof.
  apply (proj2 (proj2 (proj2 (image_url_of_any_list ["tofu"; "rice"; "egg"])))).
  simpl. lia.
Defined.

(** ** The lexicon as a table *)

(** X13. No entry of the lexicon is shadowed by an earlier one: an
    ingredient that is exactly a key, in any letter case and with any
    surrounding whitespace, receives the values declared with that key. *)
Theorem lexicon_entries_reachable (key : string) (h : hint) :
  In (key, h) CALORIE_HINTS ->
  first_match key = Some (key, h)
  /\ forall (raw : string) (t : totals),
       PyStr.lower (PyStr.strip raw) = key ->
       totals_eq (estimate_step t raw) (add_hint t h).
Proof.
  intros Hin.
  assert (Hfm : first_match key = Some (key, h)).
  { cbn [CALORIE_HINTS In] in Hin.
    repeat (destruct Hin as [Hin|Hin];
            [inversion Hin; subst; reflexivity|]).
    contradiction. }
  split; [exact Hfm|].
  intros raw t Hraw.
  pose proof (estimate_step_attributed t raw) as Hstep.
  unfold attributed in Hstep.
  rewrite <- first_match_strip, Hraw, Hfm in Hstep. exact Hstep.
Qed.

Lemma lexicon_entries_reachable_witness :
  totals_eq (estimate_step zero_totals "  Olive Oil ")
            (add_hint zero_totals (119, 0, 0, 13.5)%Q).
Proof.
  refine (proj2 (lexicon_entries_reachable "olive oil" (119, 0, 0, 13.5)%Q _)
                "  Olive Oil " zero_totals eq_refl).
  cbn [CALORIE_HINTS In]. do 12 right. left. reflexivity.
Defined.

(** ** Blank elements *)

(** X14. The utilities do not treat a blank element alike.  On a list of
    whitespace-only strings the title is the placeholder and the
    description names nothing, both skipping every element, whereas the
    estimator counts each element as an unmatched ingredient (40 calories
    and 5 g of carbs each) and the time counts it as an ingredient. *)
Theorem blank_elements (ings : list string) :
  Forall (fun i => all_space i = true) ings ->
  craft_title ings = "FlareChef Creation"
  /\ craft_description ings
     = "A warm, glowing recipe that turns  into a cozy, restaurant-worthy dish."
  /\ calories (estimate_nutrition ings)
     = (40 * Z.of_nat (List.length ings))%Z
  /\ (carbs (estimate_nutrition ings)
      == 5 * inject_Z (Z.of_nat (List.length ings)))%Q
  /\ (protein (estimate_nutrition ings) == 0)%Q
  /\ (fat (estimate_nutrition ings) == 0)%Q
  /\ compute_time ings
     = Z.min (Z.max (10 + 5 * Z.of_nat (List.length ings)) 15) 75.
Proof.
  intros Hall.
  assert (Hstrip : forall i, all_space i = true -> PyStr.strip i = "").
  { intros i Hi. unfold PyStr.strip. now rewrite (lstrip_all_space _ Hi). }
  assert (Hfilter : filter (fun i => PyStr.truthy (PyStr.strip i)) ings = []).
  { induction Hall as [|i l Hi _ IH]; [reflexivity|].
    cbn [filter]. now rewrite (Hstrip _ Hi). }
  assert (Hatt : Forall (fun i => attributed (PyStr.lower i) = fallback) ings).
  { eapply Forall_impl; [|exact Hall]. intros i Hi. cbv beta in Hi.
    unfold attributed.
    now rewrite <- first_match_strip, (Hstrip _ Hi). }
  split; [unfold craft_title, title_core; now rewrite Hfilter|].
  split; [unfold craft_description; now rewrite Hfilter|].
  clear Hall Hstrip Hfilter.
  split.
  { rewrite calories_kcal_sum. unfold kcal_sum.
    induction Hatt as [|i l Hi _ IH]; [reflexivity|].
    cbn [map fold_right List.length]. rewrite IH.
    unfold kcal_of. rewrite Hi. cbn [fallback hint_cals].
    change (int_of_float 40) with 40%Z. lia. }
  destruct (nutrition_exact_sums ings) as (P & C & F).
  rewrite P, C, F. unfold sum_of. clear P C F.
  split; [|split; [|split; [|reflexivity]]].
  - induction Hatt as [|i l Hi _ IH]; [reflexivity|].
    cbn [map fold_right List.length]. rewrite IH, Hi.
    rewrite Nat2Z.inj_succ, <- Z.add_1_r, inject_Z_plus.
    cbn [fallback hint_carb]. ring.
  - induction Hatt as [|i l Hi _ IH]; [reflexivity|].
    cbn [map fold_right]. rewrite IH, Hi. reflexivity.
  - induction Hatt as [|i l Hi _ IH]; [reflexivity|].
    cbn [map fold_right]. rewrite IH, Hi. reflexivity.
Qed.

Lemma blank_elements_witness :
  craft_title [" "; ""; "  "] = "FlareChef Creation"
  /\ calories (estimate_nutrition [" "; ""; "  "]) = 120%Z.
Proof.
  assert (H : Forall (fun i => all_space i = true) [" "; ""; "  "])
    by (repeat constructor).
  destruct (blank_elements [" "; ""; "  "] H) as (Ht & _ & Hc & _).
  split; [exact Ht | exact Hc].
Defined.

(** ** Where the time heuristic saturates *)

(** X15. The time is 15 exactly for lists of at most one ingredient and 75
    exactly for lists of at least thirteen; in between it is 10 + 5 n.  As
    n ingredients need a text of at least 2 n - 1 characters, a request
    whose time is 75 has a text of at least 25 characters. *)
Theorem compute_time_thresholds (ings : list string) :
  let n := List.length ings in
  (compute_time ings = 15%Z <-> n <= 1)
  /\ (compute_time ings = 75%Z <-> 13 <= n)
  /\ (1 <= n <= 13 -> compute_time ings = (10 + 5 * Z.of_nat n)%Z)
  /\ (forall text : string,
         ings = parse_ingredients text ->
         compute_time ings = 75%Z -> 25 <= String.length text).
Proof.
  cbv zeta. unfold compute_time.
  split; [lia|]. split; [lia|]. split; [lia|].
  intros text -> Htime.
  pose proof (parse_ingredients_length_bound_aux text) as Hb.
  lia.
Qed.

Lemma compute_time_thresholds_witness :
  compute_time (repeat "egg" 13) = 75%Z
  /\ compute_time ["egg"; "rice"] = 20%Z
  /\ 25 <= String.length "a,b,c,d,e,f,g,h,i,j,k,l,m".
Proof.
  split; [|split].
  - apply (proj1 (proj2 (compute_time_thresholds (repeat "egg" 13)))).
    simpl. lia.
  - apply (proj1 (proj2 (proj2 (compute_time_thresholds ["egg"; "rice"])))).
    simpl. lia.
  - apply (proj2 (proj2 (proj2
             (compute_time_thresholds
                (parse_ingredients "a,b,c,d,e,f,g,h,i,j,k,l,m"))))
             "a,b,c,d,e,f,g,h,i,j,k,l,m" eq_refl).
    reflexivity.
Defined.

(** ** The estimator in binary64: sign and structure *)

Section Binary64Facts.

(** The loop body of the binary64 run, through the scan of the
    specification. *)
Lemma binary64_estimate_step_first_match (t : Binary64.totals) (raw : string) :
  Binary64.estimate_step t raw
  = match first_match (PyStr.lower raw) with
    | Some (_, (c, p, cb, f)) =>
        {| Binary64.total_cals :=
             Binary64.add (Binary64.total_cals t) (Binary64.of_decimal c);
           Binary64.total_pro :=
             Binary64.add (Binary64.total_pro t) (Binary64.of_decimal p);
           Binary64.total_carb :=
             Binary64.add (Binary64.total_carb t) (Binary64.of_decimal cb);
           Binary64.total_fat :=
             Binary64.add (Binary64.total_fat t) (Binary64.of_decimal f) |}
    | None =>
        {| Binary64.total_cals :=
             Binary64.add (Binary64.total_cals t) (Binary64.of_Z 40);
           Binary64.total_pro := Binary64.total_pro t;
           Binary64.total_carb :=
             Binary64.add (Binary64.total_carb t) (Binary64.of_Z 5);
           Binary64.total_fat := Binary64.total_fat t |}
    end.
Proof.
  unfold Binary64.estimate_step. rewrite first_key_in_find.
  fold (first_match (PyStr.lower (PyStr.strip raw))).
  rewrite first_match_strip.
  destruct (first_match (PyStr.lower raw)) as [[key h]|] eqn:Hfm;
    cbn [option_map fst]; [|reflexivity].
  destruct (first_match_In _ _ _ Hfm) as [Hin _].
  destruct (CALORIE_HINTS_keys_shape _ _ Hin) as [_ He].
  rewrite (ends_nonspace_truthy _ He).
  rewrite (getitem_In _ _ _ CALORIE_HINTS_keys_NoDup Hin).
  reflexivity.
Qed.

(** Shifting a non-negative mantissa to the right keeps it non-negative. *)
Lemma shr_1_nonneg (mrs : shr_record) :
  (0 <= shr_m mrs)%Z -> (0 <= shr_m (shr_1 mrs))%Z.
Proof.
  destruct mrs as [m r s]. cbn [shr_m]. intros H.
  destruct m as [|[p|p|]|p]; cbn; lia.
Qed.

Lemma iter_pos_shr_1_nonneg (p : positive) (mrs : shr_record) :
  (0 <= shr_m mrs)%Z -> (0 <= shr_m (iter_pos shr_1 p mrs))%Z.
Proof.
  revert mrs. induction p as [p IH|p IH|]; intros mrs H; cbn [iter_pos].
  - apply IH, IH, shr_1_nonneg, H.
  - apply IH, IH, H.
  - apply shr_1_nonneg, H.
Qed.

Lemma shr_fexp_nonneg (prec emax m e : Z) (l : location) :
  (0 <= m)%Z -> (0 <= shr_m (fst (shr_fexp prec emax m e l)))%Z.
Proof.
  intros H. unfold shr_fexp, shr.
  assert (H0 : (0 <= shr_m (shr_record_of_loc m l))%Z)
    by (destruct l as [|[]]; exact H).
  destruct (fexp prec emax (Zdigits2 m + e) - e)%Z; cbn [fst];
    [exact H0 | now apply iter_pos_shr_1_nonneg | exact H0].
Qed.

Lemma round_nearest_even_nonneg (m : Z) (l : location) :
  (0 <= m)%Z -> (0 <= round_nearest_even m l)%Z.
Proof.
  intros H. destruct l as [|[]]; cbn; [lia | | lia | lia].
  destruct (Z.even m); lia.
Qed.

(** Rounding a non-negative mantissa with a clear sign gives +0, a positive
    float or +infinity. *)
Lemma binary_round_aux_plus_signed (prec emax mx ex : Z) (lx : location) :
  (0 <= mx)%Z ->
  plus_signed (binary_round_aux prec emax false mx ex lx) = true.
Proof.
  intros H. unfold binary_round_aux.
  pose proof (shr_fexp_nonneg prec emax mx ex lx H) as H1.
  destruct (shr_fexp prec emax mx ex lx) as [mrs' e']. cbn [fst] in H1.
  pose proof (shr_fexp_nonneg prec emax
                (round_nearest_even (shr_m mrs') (loc_of_shr_record mrs'))
                e' loc_Exact (round_nearest_even_nonneg _ _ H1)) as H2.
  destruct (shr_fexp prec emax
              (round_nearest_even (shr_m mrs') (loc_of_shr_record mrs'))
              e' loc_Exact) as [mrs'' e''].
  cbn [fst] in H2.
  destruct (shr_m mrs'') as [|m|m]; [reflexivity | | lia].
  destruct (e'' <=? emax - prec)%Z; reflexivity.
Qed.

Lemma binary_round_plus_signed (prec emax : Z) (m : positive) (e : Z) :
  plus_signed (binary_round prec emax false m e) = true.
Proof.
  unfold binary_round.
  destruct (shl_align m e (fexp prec emax (Z.pos (digits2_pos m) + e)))
    as [mz ez].
  apply binary_round_aux_plus_signed. lia.
Qed.

(** Addition keeps the sign clear. *)
Lemma add_plus_signed (x y : spec_float) :
  plus_signed x = true -> plus_signed y = true ->
  plus_signed (Binary64.add x y) = true.
Proof.
  unfold Binary64.add, SFadd.
  destruct x as [[]|[]| |[] mx ex]; try discriminate;
    destruct y as [[]|[]| |[] my ey]; try discriminate; intros _ _;
    try reflexivity.
  cbn [cond_Zopp]. unfold binary_normalize.
  destruct (Z.pos (fst (shl_align mx ex (Z.min ex ey)))
            + Z.pos (fst (shl_align my ey (Z.min ex ey))))%Z eqn:E;
    [reflexivity | apply binary_round_plus_signed | lia].
Qed.

(** Adding +0 changes nothing when the sign is clear. *)
Lemma add_zero_r (x : spec_float) :
  plus_signed x = true -> Binary64.add x (S754_zero false) = x.
Proof. destruct x as [[]|[]| |[] m e]; try discriminate; reflexivity. Qed.

Lemma of_Z_plus_signed (n : Z) :
  (0 <= n)%Z -> plus_signed (Binary64.of_Z n) = true.
Proof.
  intros H. unfold Binary64.of_Z, binary_normalize.
  destruct n; [reflexivity | apply binary_round_plus_signed | lia].
Qed.

(** The float nearest to a non-negative number of tenths. *)
Lemma of_decimal_tenths_plus_signed (n : Z) :
  (0 <= n)%Z -> plus_signed (Binary64.of_decimal (n # 10)) = true.
Proof.
  intros H. unfold Binary64.of_decimal. cbn [Qnum Qden].
  pose proof (of_Z_plus_signed n H) as Hn.
  change (Binary64.of_Z 10)
    with (S754_finite false 5629499534213120 (-49)).
  unfold SFdiv.
  destruct (Binary64.of_Z n) as [[]|[]| |[] mx ex]; try discriminate;
    try reflexivity.
  unfold SFdiv_core_binary.
  match goal with
  | |- context [Z.div_eucl ?m (Z.pos ?p)] => set (m' := m); set (d := p)
  end.
  assert (Hm' : (0 <= m')%Z).
  { unfold m'.
    match goal with
    | |- (0 <= match ?s with _ => _ end)%Z => destruct s
    end; [lia | | lia].
    apply Z.shiftl_nonneg. lia. }
  pose proof (Z_div_mod m' (Z.pos d) ltac:(lia)) as Hdm.
  destruct (Z.div_eucl m' (Z.pos d)) as [q r].
  cbn [xorb]. apply binary_round_aux_plus_signed.
  destruct Hdm as [Heq Hr]. nia.
Qed.

End Binary64Facts.

Section Binary64Sums.

Lemma attributed_plus_signed (k : string) :
  plus_signed (Binary64.of_decimal (hint_cals (attributed k))) = true
  /\ plus_signed (Binary64.of_decimal (hint_pro (attributed k))) = true
  /\ plus_signed (Binary64.of_decimal (hint_carb (attributed k))) = true
  /\ plus_signed (Binary64.of_decimal (hint_fat (attributed k))) = true.
Proof.
  assert (Hall : forallb (fun kh : string * hint =>
                            plus_signed (Binary64.of_decimal (hint_cals (snd kh)))
                            && plus_signed (Binary64.of_decimal (hint_pro (snd kh)))
                            && plus_signed (Binary64.of_decimal (hint_carb (snd kh)))
                            && plus_signed (Binary64.of_decimal (hint_fat (snd kh))))
                         CALORIE_HINTS = true) by (vm_compute; reflexivity).
  unfold attributed. destruct (first_match k) as [[key h]|] eqn:Hfm.
  - apply first_match_In in Hfm. destruct Hfm as [Hin _].
    rewrite forallb_forall in Hall. specialize (Hall _ Hin).
    cbn [snd] in Hall. rewrite !andb_true_iff in Hall. tauto.
  - repeat split; vm_compute; reflexivity.
Qed.

(** One turn of the binary64 loop, component by component, when the totals
    have a clear sign. *)
Lemma binary64_estimate_step_components (t : Binary64.totals) (raw : string) :
  plus_signed (Binary64.total_pro t) = true ->
  plus_signed (Binary64.total_fat t) = true ->
  let h := attributed (PyStr.lower raw) in
  Binary64.total_cals (Binary64.estimate_step t raw)
  = Binary64.add (Binary64.total_cals t) (Binary64.of_decimal (hint_cals h))
  /\ Binary64.total_pro (Binary64.estimate_step t raw)
     = Binary64.add (Binary64.total_pro t) (Binary64.of_decimal (hint_pro h))
  /\ Binary64.total_carb (Binary64.estimate_step t raw)
     = Binary64.add (Binary64.total_carb t) (Binary64.of_decimal (hint_carb h))
  /\ Binary64.total_fat (Binary64.estimate_step t raw)
     = Binary64.add (Binary64.total_fat t) (Binary64.of_decimal (hint_fat h)).
Proof.
  intros Hp Hf. cbv zeta.
  rewrite binary64_estimate_step_first_match. unfold attributed.
  destruct (first_match (PyStr.lower raw)) as [[key [[[c p] cb] f]]|].
  - repeat split; reflexivity.
  - cbn [Binary64.total_cals Binary64.total_pro Binary64.total_carb
         Binary64.total_fat fallback hint_cals hint_pro hint_carb hint_fat].
    change (Binary64.of_decimal 0) with (S754_zero false).
    rewrite (add_zero_r _ Hp), (add_zero_r _ Hf).
    repeat split; reflexivity.
Qed.

(** The binary64 loop from clear-signed totals: each total is the float sum
    in list order, and keeps a clear sign. *)
Lemma binary64_fold_estimate_step (ings : list string) (t : Binary64.totals) :
  plus_signed (Binary64.total_cals t) = true ->
  plus_signed (Binary64.total_pro t) = true ->
  plus_signed (Binary64.total_carb t) = true ->
  plus_signed (Binary64.total_fat t) = true ->
  let r := fold_left Binary64.estimate_step ings t in
  let sum := fun component x0 =>
    fold_left
      (fun acc raw =>
         Binary64.add acc
           (Binary64.of_decimal (component (attributed (PyStr.lower raw)))))
      ings x0 in
  (Binary64.total_cals r = sum hint_cals (Binary64.total_cals t)
   /\ Binary64.total_pro r = sum hint_pro (Binary64.total_pro t)
   /\ Binary64.total_carb r = sum hint_carb (Binary64.total_carb t)
   /\ Binary64.total_fat r = sum hint_fat (Binary64.total_fat t))
  /\ (plus_signed (Binary64.total_cals r) = true
      /\ plus_signed (Binary64.total_pro r) = true
      /\ plus_signed (Binary64.total_carb r) = true
      /\ plus_signed (Binary64.total_fat r) = true).
Proof.
  revert t. induction ings as [|raw ings IH]; intros t Hc Hp Hcb Hf.
  - cbn. tauto.
  - cbn [fold_left]. cbv zeta.
    destruct (binary64_estimate_step_components t raw Hp Hf)
      as (S1 & S2 & S3 & S4). cbv zeta in S1, S2, S3, S4.
    destruct (attributed_plus_signed (PyStr.lower raw)) as (A1 & A2 & A3 & A4).
    rewrite <- S1, <- S2, <- S3, <- S4.
    apply IH.
    + rewrite S1. now apply add_plus_signed.
    + rewrite S2. now apply add_plus_signed.
    + rewrite S3. now apply add_plus_signed.
    + rewrite S4. now apply add_plus_signed.
Qed.

Lemma to_Q_nonneg (x : spec_float) :
  plus_signed x = true -> (0 <= Binary64.to_Q x)%Q.
Proof.
  destruct x as [[]|[]| |[] m e]; try discriminate; intros _;
    try (cbn; discriminate).
  unfold Binary64.to_Q. cbn [cond_Zopp].
  apply Qmult_le_0_compat; [unfold Qle; cbn; lia|].
  apply Qpower.Qpower_0_le. discriminate.
Qed.

Lemma round1_plus_signed (x : spec_float) :
  plus_signed x = true -> plus_signed (Binary64.round1 x) = true.
Proof.
  intros H. pose proof (to_Q_nonneg x H) as Hq.
  destruct x as [[]|[]| |[] m e]; try discriminate; try reflexivity.
  unfold Binary64.round1.
  set (n := round_half_even (Binary64.to_Q (S754_finite false m e) * 10)).
  assert (Hn : (0 <= n)%Z).
  { apply round_half_even_nonneg.
    apply Qmult_le_0_compat; [exact Hq | discriminate]. }
  destruct (n =? 0)%Z; [reflexivity|].
  now apply of_decimal_tenths_plus_signed.
Qed.

Lemma plus_signed_ge0 (x : spec_float) :
  plus_signed x = true -> SFleb (S754_zero false) x = true.
Proof. destruct x as [[]|[]| |[] m e]; try discriminate; reflexivity. Qed.

Lemma binary64_int_of_float_nonneg (x : spec_float) (c : Z) :
  plus_signed x = true -> Binary64.int_of_float x = Some c -> (0 <= c)%Z.
Proof.
  intros H Hc. pose proof (to_Q_nonneg x H) as Hq.
  destruct x as [[]|[]| |[] m e]; try discriminate; cbn in Hc.
  - inversion Hc. lia.
  - inversion Hc. now apply int_of_float_nonneg.
Qed.

End Binary64Sums.

(** The binary64 estimator is the conversion of the four float sums. *)
Lemma binary64_estimate_nutrition_sums (ings : list string) :
  Binary64.estimate_nutrition ings
  = match Binary64.int_of_float (float_sum_of hint_cals ings) with
    | Some c =>
        Some {| Binary64.calories := c;
                Binary64.protein := Binary64.round1 (float_sum_of hint_pro ings);
                Binary64.carbs := Binary64.round1 (float_sum_of hint_carb ings);
                Binary64.fat := Binary64.round1 (float_sum_of hint_fat ings) |}
    | None => None
    end.
Proof.
  unfold Binary64.estimate_nutrition, float_sum_of.
  destruct (binary64_fold_estimate_step ings
              {| Binary64.total_cals := S754_zero false;
                 Binary64.total_pro := S754_zero false;
                 Binary64.total_carb := S754_zero false;
                 Binary64.total_fat := S754_zero false |}
              eq_refl eq_refl eq_refl eq_refl) as [(H1 & H2 & H3 & H4) _].
  cbv zeta in H1, H2, H3, H4.
  cbn [Binary64.total_cals Binary64.total_pro Binary64.total_carb
       Binary64.total_fat] in H1, H2, H3, H4.
  now rewrite H1, H2, H3, H4.
Qed.

Lemma float_sum_of_plus_signed (component : hint -> Q) (ings : list string) :
  (forall k, plus_signed (Binary64.of_decimal (component (attributed k))) = true) ->
  plus_signed (float_sum_of component ings) = true.
Proof.
  intros Hc. unfold float_sum_of.
  assert (H0 : plus_signed (S754_zero false) = true) by reflexivity.
  revert H0. generalize (S754_zero false).
  induction ings as [|raw ings IH]; intros x Hx; [exact Hx|].
  cbn [fold_left]. apply IH. now apply add_plus_signed.
Qed.

(** C7. In the arithmetic of the code (binary64), whenever the estimator
    returns, the four components of the nutrition facts are non-negative,
    and protein, carbs and fat are obtained by rounding to one decimal once,
    on the float sum over all ingredients, in which nothing has been rounded
    to a decimal on the way; calories is the integer part of the float
    sum. *)
Theorem binary64_nutrition_nonneg_rounded_once
        (ings : list string) (n : Binary64.NutritionModel) :
  Binary64.estimate_nutrition ings = Some n ->
  (0 <= Binary64.calories n)%Z
  /\ SFleb (S754_zero false) (Binary64.protein n) = true
  /\ SFleb (S754_zero false) (Binary64.carbs n) = true
  /\ SFleb (S754_zero false) (Binary64.fat n) = true
  /\ Binary64.int_of_float (float_sum_of hint_cals ings)
     = Some (Binary64.calories n)
  /\ Binary64.protein n = Binary64.round1 (float_sum_of hint_pro ings)
  /\ Binary64.carbs n = Binary64.round1 (float_sum_of hint_carb ings)
  /\ Binary64.fat n = Binary64.round1 (float_sum_of hint_fat ings).
Proof.
  rewrite binary64_estimate_nutrition_sums. intros H.
  destruct (Binary64.int_of_float (float_sum_of hint_cals ings)) as [c|] eqn:Hc;
    [|discriminate].
  inversion H as [Hn]. clear H.
  cbn [Binary64.calories Binary64.protein Binary64.carbs Binary64.fat].
  assert (S1 : plus_signed (float_sum_of hint_cals ings) = true)
    by (apply float_sum_of_plus_signed; intros k; apply attributed_plus_signed).
  assert (S2 : plus_signed (float_sum_of hint_pro ings) = true)
    by (apply float_sum_of_plus_signed; intros k; apply attributed_plus_signed).
  assert (S3 : plus_signed (float_sum_of hint_carb ings) = true)
    by (apply float_sum_of_plus_signed; intros k; apply attributed_plus_signed).
  assert (S4 : plus_signed (float_sum_of hint_fat ings) = true)
    by (apply float_sum_of_plus_signed; intros k; apply attributed_plus_signed).
  split; [exact (binary64_int_of_float_nonneg _ _ S1 Hc)|].
  split; [apply plus_signed_ge0, round1_plus_signed, S2|].
  split; [apply plus_signed_ge0, round1_plus_signed, S3|].
  split; [apply plus_signed_ge0, round1_plus_signed, S4|].
  repeat split; reflexivity.
Qed.

Lemma binary64_nutrition_nonneg_rounded_once_witness :
  exists n,
    Binary64.estimate_nutrition ["chicken"; "rice"; "butter"] = Some n
    /\ (0 <= Binary64.calories n)%Z
    /\ SFleb (S754_zero false) (Binary64.protein n) = true
    /\ Binary64.protein n
       = Binary64.round1 (float_sum_of hint_pro ["chicken"; "rice"; "butter"]).
Proof.
  eexists. split; [reflexivity|].
  destruct (binary64_nutrition_nonneg_rounded_once
              ["chicken"; "rice"; "butter"] _ eq_refl)
    as (H1 & H2 & _ & _ & _ & H6 & _).
  split; [exact H1|]. split; [exact H2 | exact H6].
Defined.

(** ** Order of the ingredients *)

Section OrderFacts.










End OrderFacts.

(** ** Long runs on the hardware floats *)

Section MachineFacts.





End MachineFacts.




